(** * Membrane: JWT verification for the SSO handshake (jwt_utils.py)

    A shallow embedding of [jwt_utils.py] and the properties of its token
    verification and issuance operations.

    What is modelled, and how:
    - Python values found in a decoded payload are the scalar JSON values
      [None], booleans, integers and strings ([value]); numbers with a
      fraction, lists and nested objects are left out.  A payload is a
      [gmap string value] (a Python [dict]).
    - Exceptions are values with a class and a message ([exn]); the class
      hierarchy of [jwt_utils.py], of [jwt.exceptions] and the builtins the
      code can raise is [ancestors], and [isinstance] is what an [except]
      clause tests.
    - The token blacklist is a Python [set] of token arguments
      ([gset token_arg]); the functions that can update it return the set as
      it is when they end, together with their outcome.
    - The JWT library ([jwt.encode], [jwt.decode]), the environment
      ([os.getenv]), the files ([pathlib]), the web framework (quart's
      [redirect] and [url_for]) and the clock ([datetime.utcnow]) are
      outside the repository: they are parameters ([JwtLibrary], [Config],
      [FileSystem], [Quart], [Host], a clock reading).  Each of them can
      raise where the library can: the verified decode depends on the time
      of the call, a path that exists can fail to be read, [redirect] can
      refuse a location and [url_for] an endpoint.
    - The clock is read in microseconds; [timestamp()], a float in Python,
      is the exact number of seconds here.  Whether [utcnow().timestamp()]
      is the UTC time depends on the time zone of the host and is not
      modelled for the verifiers: their clock is whatever that expression
      returns.  Where a token is issued the naive datetime, the range of
      [datetime] and [timedelta], and the [timestamp()] of the host are
      modelled apart.
    - [logging] calls and the [__cause__] chaining of [raise ... from] have
      no effect on what is returned or raised, and are left out.
    - [request_helpers.py] and [emails.py] are embedded in modules of their
      own ([RequestHelpers], [Emails]), with the regular expression matcher
      and the mail client as parameters; the polling loop of [send_email]
      takes fuel, and is shown to need no more than nineteen iterations. *)

From Stdlib Require Import ZArith Lia.
From stdpp Require Import base strings gmap pretty.

Open Scope string_scope.
Open Scope Z_scope.

(** ** Python values *)

(** The values of a decoded JSON payload that the code inspects: [None],
    booleans, integers and strings. *)
Inductive value : Type :=
  | VNone
  | VBool (b : bool)
  | VInt (n : Z)
  | VStr (s : string).

#[global] Instance value_eq_dec : EqDecision value.
Proof. solve_decision. Defined.

(** Truth value of a Python object ([if not x]). *)
Definition truthy (v : value) : bool :=
  match v with
  | VNone => false
  | VBool b => b
  | VInt n => negb (n =? 0)
  | VStr s => negb (String.eqb s "")
  end.

(** [str(x)], as an f-string formats a value. *)
Definition py_str (v : value) : string :=
  match v with
  | VNone => "None"
  | VBool true => "True"
  | VBool false => "False"
  | VInt n => pretty n
  | VStr s => s
  end.

(** The integer a number stands for in a comparison ([bool] is a subclass of
    [int]); [None] and strings are not comparable with a number. *)
Definition as_number (v : value) : option Z :=
  match v with
  | VInt n => Some n
  | VBool b => Some (Z.b2z b)
  | VNone | VStr _ => None
  end.

(** A token argument: [None] when no token was supplied, else a string. *)
Definition token_arg : Type := option string.

(** [if not jwt_token]: [None] and the empty string are falsy. *)
Definition falsy_token (t : token_arg) : bool :=
  match t with
  | None => true
  | Some s => String.eqb s ""
  end.

(** ** The clock *)

(** A reading of [datetime.utcnow()], in microseconds since the epoch (the
    resolution of [datetime]).  [timestamp()] is that reading in seconds; it
    is kept exact here, as the rational [us / 10^6]. *)
Definition clock : Type := Z.

Definition us_per_second : Z := 1000000.

(** [int(current_time.timestamp())]: truncation toward zero. *)
Definition int_timestamp (now : clock) : Z := Z.quot now us_per_second.

(** ** Exceptions *)

Inductive exn_class : Type :=
  (* builtins *)
  | Exception
  | KeyError
  | TypeError
  | ValueError
  | UnicodeError
  | UnicodeDecodeError
  | ArithmeticError
  | OverflowError
  | OSError
  | FileNotFoundError
  | PermissionError
  | IsADirectoryError
  (* jwt_utils.py *)
  | JWTError
  | JWTAppIdMissingError
  | JWTPublicKeyNotFoundError
  | JWTPrivateKeyNotFoundError
  | BlacklistedTokenError
  | InvalidTokenError
  | InvalidClientTokenError
  | InvalidEmailTokenError
  | JWTExpired
  (* jwt.exceptions *)
  | PyJWTError
  | PyJWT_InvalidTokenError
  | PyJWT_DecodeError
  | PyJWT_InvalidSignatureError
  | PyJWT_ExpiredSignatureError
  | PyJWT_InvalidAlgorithmError
  | PyJWT_InvalidKeyError.

#[global] Instance exn_class_eq_dec : EqDecision exn_class.
Proof. solve_decision. Defined.

(** The proper superclasses of a class, nearest first. *)
Definition ancestors (c : exn_class) : list exn_class :=
  match c with
  | Exception => []
  | KeyError | TypeError | ValueError | ArithmeticError | OSError =>
      [Exception]
  | UnicodeError => [ValueError; Exception]
  | UnicodeDecodeError => [UnicodeError; ValueError; Exception]
  | OverflowError => [ArithmeticError; Exception]
  | FileNotFoundError | PermissionError | IsADirectoryError =>
      [OSError; Exception]
  | JWTError => [Exception]
  | JWTAppIdMissingError | JWTPublicKeyNotFoundError
  | JWTPrivateKeyNotFoundError | BlacklistedTokenError | InvalidTokenError
  | InvalidClientTokenError | InvalidEmailTokenError | JWTExpired =>
      [JWTError; Exception]
  | PyJWTError => [Exception]
  | PyJWT_InvalidTokenError | PyJWT_InvalidKeyError => [PyJWTError; Exception]
  | PyJWT_DecodeError | PyJWT_ExpiredSignatureError
  | PyJWT_InvalidAlgorithmError =>
      [PyJWT_InvalidTokenError; PyJWTError; Exception]
  | PyJWT_InvalidSignatureError =>
      [PyJWT_DecodeError; PyJWT_InvalidTokenError; PyJWTError; Exception]
  end.

Definition subclass (c d : exn_class) : bool :=
  bool_decide (c = d) || bool_decide (d ∈ ancestors c).

Record exn : Type := mk_exn { exn_cls : exn_class; exn_msg : string }.

#[global] Instance exn_eq_dec : EqDecision exn.
Proof. solve_decision. Defined.

(** What [except C] tests. *)
Definition isinstance (e : exn) (c : exn_class) : bool := subclass (exn_cls e) c.

(** ** Outcomes: a value returned or an exception raised *)

Inductive result (A : Type) : Type :=
  | Ok (a : A)
  | Raise (e : exn).
Arguments Ok {A} a.
Arguments Raise {A} e.

Definition bind {A B} (r : result A) (k : A -> result B) : result B :=
  match r with
  | Ok a => k a
  | Raise e => Raise e
  end.

(** [try: r except C1, C2, ... as error: handler(error)]; an exception of
    no listed class passes through. *)
Definition try_except {A} (r : result A) (classes : list exn_class)
    (handler : exn -> result A) : result A :=
  match r with
  | Ok a => Ok a
  | Raise e =>
      if existsb (isinstance e) classes then handler e else Raise e
  end.

Notation "'let*' x := c1 'in' c2" := (bind c1 (fun x => c2))
  (at level 10, x name, c1 at level 200, c2 at level 200).

Definition raise {A} (c : exn_class) (msg : string) : result A :=
  Raise (mk_exn c msg).

(** [d[k]]: the value, or [KeyError] (its message is the key). *)
Definition getitem (d : gmap string value) (k : string) : result value :=
  match d !! k with
  | Some v => Ok v
  | None => raise KeyError k
  end.

(** [a > v] for an integer [a]: [TypeError] when [v] is no number. *)
Definition int_gt (a : Z) (v : value) : result bool :=
  match as_number v with
  | Some n => Ok (n <? a)
  | None => raise TypeError "'>' not supported between instances"
  end.

(** [now.timestamp() > v]: the timestamp is [now / 10^6] seconds. *)
Definition timestamp_gt (now : clock) (v : value) : result bool :=
  match as_number v with
  | Some n => Ok (n * us_per_second <? now)
  | None => raise TypeError "'>' not supported between instances"
  end.

(** ** The outside world *)

(** [os.getenv] of the four settings the module reads. *)
Record Config : Type := {
  app_id_field : string;        (* MEMBRANE_APP_ID_FIELD *)
  redirect_url_field : string;  (* MEMBRANE_REDIRECT_URL_FIELD *)
  expiration_field : string;    (* MEMBRANE_EXPIRATION_FIELD *)
  algorithm : string            (* MEMBRANE_ENCODE_ALGORITHM *)
}.

(** The three entry points of the JWT library that the module calls.  The
    verified decode validates the registered time claims of a token against
    the time of the call: it takes the clock of the call with the token, the
    key and the algorithm. *)
Record JwtLibrary : Type := {
  (* decode(token, options={"verify_signature": False}) *)
  jwt_decode_unverified : string -> result (gmap string value);
  (* decode(token, key, algorithms=[algorithm]), called at a time *)
  jwt_decode :
    clock -> string -> string -> string -> result (gmap string value);
  (* encode(payload, key, algorithm=algorithm) *)
  jwt_encode : gmap string value -> string -> string -> result string
}.

(** Paths and files: [dir / name]; what opening a path and reading it as
    text gives, [None] when the path does not exist, and otherwise the text
    or the exception of [open] or [read] (a directory, a file that may not
    be read or is no text); [str(dict)] as it appears in a message. *)
Record FileSystem : Type := {
  path_join : string -> string -> string;
  read_text : string -> option (result string);
  dict_str : gmap string value -> string
}.

(** [path.exists()] *)
Definition path_exists (os : FileSystem) (p : string) : bool :=
  bool_decide (is_Some (read_text os p)).

(** [with path.open("r") as f: f.read()] *)
Definition open_read (os : FileSystem) (p : string) : result string :=
  match read_text os p with
  | Some outcome => outcome
  | None => raise FileNotFoundError p
  end.

(** A redirect response: where it sends, and its status. *)
Record response : Type := redirect { location : value; status_code : Z }.

#[global] Instance response_eq_dec : EqDecision response.
Proof. solve_decision. Defined.

(** The status quart's [redirect] uses when none is given. *)
Definition default_redirect_code : Z := 302.

(** The two functions of quart that the module calls, either of which can
    raise: [redirect(location)] and [redirect(location, code=...)], which
    build the response or refuse the location, and
    [url_for(endpoint, token=..., _external=True)]. *)
Record Quart : Type := {
  quart_redirect : value -> option Z -> result response;
  url_for : string -> string -> result string
}.

(** [f"{token}"]: how a token argument is formatted into a URL. *)
Definition token_str (t : token_arg) : string :=
  match t with
  | None => "None"
  | Some s => s
  end.

(** ** jwt_utils.py *)

Section JwtUtils.

Context (cfg : Config) (lib : JwtLibrary) (os : FileSystem) (web : Quart).

(** The reading of [datetime.utcnow().timestamp()] during the call, which
    is also the time at which the JWT library is called.  Every path through
    each function below reads the clock at most once. *)
Context (now : clock).

Definition decode_client_jwt_token (jwt_token : token_arg)
    (keys_directory : string) : result (gmap string value) :=
  if falsy_token jwt_token then
    raise JWTError "No JWT token provided in query parameters."
  else
    try_except
      (let* unverified_decoded_token :=
         jwt_decode_unverified lib (token_str jwt_token) in
       match unverified_decoded_token !! app_id_field cfg with
       | None => raise JWTAppIdMissingError "No app id in JWT payload."
       | Some app_id =>
           let public_key_path :=
             path_join os keys_directory (py_str app_id +:+ "_public_key.pem") in
           if negb (path_exists os public_key_path) then
             raise JWTPublicKeyNotFoundError
               ("Public key not found for app_id: " +:+ py_str app_id +:+ " "
                  +:+ dict_str os unverified_decoded_token +:+ ".")
           else
             let* public_key := open_read os public_key_path in
             let* decoded_token :=
               jwt_decode lib now (token_str jwt_token) public_key
                 (algorithm cfg) in
             let* redirect_url := getitem decoded_token (redirect_url_field cfg) in
             if negb (truthy redirect_url) then
               raise JWTError "No redirect URL found in Token."
             else
               let* expired_time := getitem decoded_token (expiration_field cfg) in
               let current_timestamp := int_timestamp now in
               let* is_expired := int_gt current_timestamp expired_time in
               if is_expired : bool then
                 raise JWTExpired "JWT token has expired."
               else Ok decoded_token
       end)
      [PyJWT_InvalidTokenError; PyJWT_DecodeError]
      (fun error => raise JWTError (exn_msg error)).

Definition login_redirect_with_client_jwt (clientapp_token : token_arg)
    (client_public_keys_directory membrane_frontend : string)
    : result response :=
  try_except
    (let* _ := decode_client_jwt_token clientapp_token client_public_keys_directory in
     let redirect_url_with_token :=
       membrane_frontend +:+ "?token=" +:+ token_str clientapp_token in
     quart_redirect web (VStr redirect_url_with_token) None)
    [Exception]
    (fun error =>
       raise InvalidClientTokenError "Failed to decode client application token.").

Definition decode_email_verification_token (jwt_token : token_arg)
    (server_public_key_path : string) (token_blacklist : gset token_arg)
    : result (gmap string value) :=
  if falsy_token jwt_token then
    raise JWTError "No JWT token provided in query parameters."
  else if bool_decide (jwt_token ∈ token_blacklist) then
    raise BlacklistedTokenError "This token has been blacklisted."
  else
    let* public_key := open_read os server_public_key_path in
    try_except
      (let* decoded_token :=
         jwt_decode lib now (token_str jwt_token) public_key (algorithm cfg) in
       if negb (bool_decide (is_Some (decoded_token !! redirect_url_field cfg)))
       then raise JWTError "No redirect URL found in token."
       else
         let* expired_time := getitem decoded_token (expiration_field cfg) in
         let* is_expired := timestamp_gt now expired_time in
         if is_expired : bool then
           raise JWTExpired "JWT token has expired."
         else Ok decoded_token)
      [PyJWT_InvalidTokenError]
      (fun error => raise InvalidTokenError (exn_msg error)).

(** The blacklist is a set shared with the caller and updated in place:
    the function returns it as it is when the call ends, with the
    outcome.  The token is added before the redirect is built, so an
    exception of [redirect] leaves with the token in the set. *)
Definition process_email_verification_token (email_token : token_arg)
    (server_public_key : string) (token_blacklist : gset token_arg)
    : result response * gset token_arg :=
  match
    decode_email_verification_token email_token server_public_key token_blacklist
  with
  | Raise error =>
      (* [except JWTError: raise] re-raises; any other exception passes *)
      (try_except (Raise error) [JWTError] (fun error => Raise error),
       token_blacklist)
  | Ok decoded_email_token =>
      let token_blacklist := {[ email_token ]} ∪ token_blacklist in
      (try_except
         (let* redirect_url :=
            getitem decoded_email_token (redirect_url_field cfg) in
          let email_token_redirect :=
            py_str redirect_url +:+ "?token=" +:+ token_str email_token in
          quart_redirect web (VStr email_token_redirect) (Some 302))
         [JWTError] (fun error => Raise error),
       token_blacklist)
  end.

Definition encode_email_verification_token (payload : gmap string value)
    (server_private_key_path : string) : result string :=
  if negb (path_exists os server_private_key_path) then
    raise JWTPrivateKeyNotFoundError "Private key not found"
  else
    let* private_key := open_read os server_private_key_path in
    try_except
      (jwt_encode lib payload private_key (algorithm cfg))
      [Exception]
      (fun error =>
         raise JWTError ("Failed to encode JWT token. Error: " +:+ exn_msg error)).

Definition redirect_to_client_app_using_verification_token
    (verification_token : token_arg) (server_public_key : string)
    (token_blacklist : gset token_arg) : result response * gset token_arg :=
  let '(attempt, token_blacklist) :=
    process_email_verification_token
      verification_token server_public_key token_blacklist in
  match attempt with
  | Ok resp => (Ok resp, token_blacklist)
  | Raise error =>
      if isinstance error BlacklistedTokenError then
        (* fall through to the decode that uses an empty blacklist *)
        (try_except
           (let* verification_decoded_token :=
              decode_email_verification_token
                verification_token server_public_key ∅ in
            let* redirect_url :=
              getitem verification_decoded_token (redirect_url_field cfg) in
            quart_redirect web redirect_url None)
           [InvalidTokenError; BlacklistedTokenError]
           (fun error =>
              raise InvalidEmailTokenError
                "Failed to decode client application token."),
         token_blacklist)
      else if isinstance error InvalidTokenError then
        (Raise error, token_blacklist)
      else
        (Raise error, token_blacklist)
  end.

End JwtUtils.

(** ** A concrete deployment

    A configuration, a key store and a table-driven JWT library on which the
    functions can be run: the library knows a handful of tokens and rejects
    every other string as malformed. *)

Module Scenario.

Definition cfg : Config :=
  {| app_id_field := "app_id";
     redirect_url_field := "redirect_url";
     expiration_field := "expiration";
     algorithm := "RS256" |}.

Definition os : FileSystem :=
  {| path_join := fun dir name => dir +:+ "/" +:+ name;
     read_text := fun p =>
       if String.eqb p "/keys/app1_public_key.pem" then Some (Ok "APP1-PUB")
       else if String.eqb p "/server/public.pem" then Some (Ok "SERVER-PUB")
       else if String.eqb p "/server/private.pem" then Some (Ok "SERVER-PRIV")
       else if String.eqb p "/server/locked.pem"
         then Some (raise PermissionError "[Errno 13] Permission denied")
       else None;
     dict_str := fun _ => "{...}" |}.

(** Email-verification payloads signed by the server. *)
Definition fresh_payload : gmap string value :=
  {[ "sub" := VStr "user@example.com";
     "redirect_url" := VStr "https://app.example/done";
     "expiration" := VInt 2000 ]}.

Definition stale_payload : gmap string value :=
  {[ "sub" := VStr "user@example.com";
     "redirect_url" := VStr "https://app.example/done";
     "expiration" := VInt 50 ]}.

Definition no_redirect_payload : gmap string value :=
  {[ "sub" := VStr "user@example.com"; "expiration" := VInt 2000 ]}.

(** The two newline characters. *)
Definition line_feed : Ascii.ascii := Ascii.ascii_of_nat 10.
Definition carriage_return : Ascii.ascii := Ascii.ascii_of_nat 13.

(** A redirect URL with a line feed in it. *)
Definition linefeed_url : string :=
  "https://app.example/" +:+ String line_feed "done".

Definition linefeed_payload : gmap string value :=
  {[ "sub" := VStr "user@example.com";
     "redirect_url" := VStr linefeed_url;
     "expiration" := VInt 2000 ]}.

(** Client payloads signed by application [app1]. *)
Definition client_payload : gmap string value :=
  {[ "app_id" := VStr "app1";
     "redirect_url" := VStr "https://app.example/login";
     "expiration" := VInt 100 ]}.

Definition client_no_redirect_payload : gmap string value :=
  {[ "app_id" := VStr "app1"; "expiration" := VInt 2000 ]}.

Definition client_empty_redirect_payload : gmap string value :=
  {[ "app_id" := VStr "app1";
     "redirect_url" := VStr "";
     "expiration" := VInt 2000 ]}.

(** The payload each known token carries, whoever signed it. *)
Definition carried (token : string) : option (gmap string value) :=
  if String.eqb token "fresh.jwt" then Some fresh_payload
  else if String.eqb token "stale.jwt" then Some stale_payload
  else if String.eqb token "noredirect.jwt" then Some no_redirect_payload
  else if String.eqb token "linefeed.jwt" then Some linefeed_payload
  else if String.eqb token "forged.jwt" then Some stale_payload
  else if String.eqb token "client.jwt" then Some client_payload
  else if String.eqb token "client-noredirect.jwt"
    then Some client_no_redirect_payload
  else if String.eqb token "client-emptyredirect.jwt"
    then Some client_empty_redirect_payload
  else if String.eqb token "client-forged.jwt" then Some client_payload
  else None.

(** The public key under which a token's signature verifies; the forged
    tokens verify under none. *)
Definition signer (token : string) : option string :=
  if String.eqb token "fresh.jwt" then Some "SERVER-PUB"
  else if String.eqb token "stale.jwt" then Some "SERVER-PUB"
  else if String.eqb token "noredirect.jwt" then Some "SERVER-PUB"
  else if String.eqb token "linefeed.jwt" then Some "SERVER-PUB"
  else if String.eqb token "client.jwt" then Some "APP1-PUB"
  else if String.eqb token "client-noredirect.jwt" then Some "APP1-PUB"
  else if String.eqb token "client-emptyredirect.jwt" then Some "APP1-PUB"
  else None.

Definition lib : JwtLibrary :=
  {| jwt_decode_unverified := fun token =>
       match carried token with
       | Some payload => Ok payload
       | None => raise PyJWT_DecodeError "Not enough segments"
       end;
     jwt_decode := fun _ token key alg =>
       match carried token with
       | None => raise PyJWT_DecodeError "Not enough segments"
       | Some payload =>
           if negb (String.eqb alg "RS256") then
             raise PyJWT_InvalidAlgorithmError
               "The specified alg value is not allowed"
           else if bool_decide (signer token = Some key) then Ok payload
           else raise PyJWT_InvalidSignatureError
                  "Signature verification failed"
       end;
     jwt_encode := fun payload key alg =>
       if bool_decide (payload = fresh_payload)
          && String.eqb key "SERVER-PRIV" && String.eqb alg "RS256"
       then Ok "fresh.jwt"
       else raise TypeError "Expecting a PEM-formatted key." |}.

(** Whether a string has a line feed or a carriage return in it. *)
Fixpoint has_newline (s : string) : bool :=
  match s with
  | EmptyString => false
  | String c rest =>
      Ascii.eqb c line_feed || Ascii.eqb c carriage_return || has_newline rest
  end.

(** A web framework whose [redirect] refuses a location with a newline in
    it, as a header value, and builds the response otherwise, with status
    302 when none is given. *)
Definition web : Quart :=
  {| quart_redirect := fun location code =>
       if has_newline (py_str location) then
         raise ValueError "Header values must not contain newline characters."
       else Ok (redirect location (default default_redirect_code code));
     url_for := fun endpoint token =>
       Ok ("https://membrane.example/" +:+ endpoint +:+ "?token=" +:+ token) |}.

(** Clock readings: 50 s, 100 s, 100.5 s and 101 s after the epoch. *)
Definition at_50s : clock := 50000000.
Definition at_100s : clock := 100000000.
Definition at_100s5 : clock := 100500000.
Definition at_101s : clock := 101000000.

End Scenario.

(** ** Notions the properties are stated with *)

Section Notions.

Context (cfg : Config) (lib : JwtLibrary) (os : FileSystem).

(** The payload of a token that verifies at the time [now] under the key
    stored at [key_path], with the configured algorithm. *)
Definition verified_payload (now : clock) (token : token_arg)
    (key_path : string) : option (gmap string value) :=
  match read_text os key_path with
  | Some (Ok key) =>
      match jwt_decode lib now (token_str token) key (algorithm cfg) with
      | Ok payload => Some payload
      | Raise _ => None
      end
  | _ => None
  end.

(** The payload of a client token: its unverified payload names the
    application, whose key file in [keys_directory] verifies it. *)
Definition client_verified_payload (now : clock) (token : token_arg)
    (keys_directory : string) : option (gmap string value) :=
  match jwt_decode_unverified lib (token_str token) with
  | Raise _ => None
  | Ok unverified =>
      match unverified !! app_id_field cfg with
      | None => None
      | Some app_id =>
          verified_payload now token
            (path_join os keys_directory (py_str app_id +:+ "_public_key.pem"))
      end
  end.

(** The expiration a payload carries, when it is a number. *)
Definition expiration_of (payload : gmap string value) : option Z :=
  match payload !! expiration_field cfg with
  | Some v => as_number v
  | None => None
  end.

(** The expiration has not passed at the clock reading [now]. *)
Definition unexpired (now : clock) (payload : gmap string value) : bool :=
  match expiration_of payload with
  | Some n => bool_decide (now ≤ n * us_per_second)
  | None => false
  end.

End Notions.

(** The two exceptions a verifier raises by itself at the first checks. *)
Definition missing_token_error : exn :=
  mk_exn JWTError "No JWT token provided in query parameters.".

Definition expired_error : exn := mk_exn JWTExpired "JWT token has expired.".

(** ** Issuing a verification link (jwt_utils.py) *)

(** A naive [datetime], as [datetime.utcnow()] returns one: microseconds
    since 0001-01-01 00:00:00, with no time zone.  [datetime.max] is
    9999-12-31 23:59:59.999999. *)
Definition naive_datetime : Type := Z.

Definition datetime_max : naive_datetime :=
  3652059 * 86400 * us_per_second - 1.

(** [timedelta(seconds=n)] for an integer [n], in microseconds: a
    [timedelta] holds at most 999999999 days either way. *)
Definition timedelta_seconds (n : Z) : result Z :=
  if Z.abs (n / 86400) <=? 999999999 then Ok (n * us_per_second)
  else raise OverflowError "days out of range; must have magnitude <= 999999999".

(** [d + delta]: the sum must be a [datetime]. *)
Definition datetime_add (d : naive_datetime) (delta : Z)
    : result naive_datetime :=
  if (0 <=? d + delta) && (d + delta <=? datetime_max) then Ok (d + delta)
  else raise OverflowError "date value out of range".

(** The host: [d.timestamp()] of a naive datetime, which reads [d] as a
    time of the local zone of the host and can raise. *)
Record Host : Type := { naive_timestamp : naive_datetime -> result clock }.

(** The payload [generate_email_verification_token] builds: a dict display,
    whose later keys replace equal earlier ones. *)
Definition issued_payload (cfg : Config) (email redirect_url : string)
    (expiration_timestamp : Z) : gmap string value :=
  <[ expiration_field cfg := VInt expiration_timestamp ]>
    (<[ redirect_url_field cfg := VStr redirect_url ]>
       {[ "sub" := VStr email ]}).

Section Issue.

Context (cfg : Config) (lib : JwtLibrary) (os : FileSystem) (web : Quart)
  (host : Host).

(** What [datetime.utcnow()] returns when the token is issued. *)
Context (utcnow : naive_datetime).

(** [int((datetime.utcnow() + timedelta(seconds=n)).timestamp())] *)
Definition expiration_timestamp_after (expiration_seconds : Z) : result Z :=
  let* delta := timedelta_seconds expiration_seconds in
  let* expiration_time := datetime_add utcnow delta in
  let* timestamp := naive_timestamp host expiration_time in
  Ok (int_timestamp timestamp).

Definition generate_email_verification_token (email redirect_url : string)
    (expiration_seconds : Z) (server_private_key_path : string)
    : result string :=
  let* expiration_timestamp := expiration_timestamp_after expiration_seconds in
  let payload := issued_payload cfg email redirect_url expiration_timestamp in
  let* email_token :=
    encode_email_verification_token cfg lib os payload server_private_key_path in
  let* verification_url := url_for web "authenticate" email_token in
  Ok verification_url.

End Issue.

(** ** Validating the address of a request (request_helpers.py) *)

Module RequestHelpers.

(** The exception classes of the module, and [re.error] of the regular
    expression library. *)
Inductive error_class : Type :=
  | RequestError
  | EmailError
  | TokenError
  | MissingTokenError
  | InvalidTokenError
  | ReError.

Record error : Type := mk_error { error_cls : error_class; error_msg : string }.

Inductive outcome (A : Type) : Type :=
  | Returns (a : A)
  | Raises (e : error).
Arguments Returns {A} a.
Arguments Raises {A} e.

(** [re.match(pattern, string)]: whether the pattern matches at the start
    of the string, or [re.error] for a pattern that does not compile. *)
Inductive match_answer : Type :=
  | Matched
  | NoMatch
  | BadPattern (msg : string).

Section WithRegex.

Context (re_match : string -> string -> match_answer).

(** [os.getenv("MEMBRANE_ALLOWED_EMAIL_DOMAINS_PATTERN", "")]: the value of
    the variable, [None] when it is not set. *)
Context (allowed_pattern : option string).

Definition is_valid_email (email : string) : outcome bool :=
  let pattern := default "" allowed_pattern in
  match re_match pattern email with
  | BadPattern msg => Raises (mk_error ReError msg)
  | NoMatch =>
      Raises (mk_error EmailError ("Invalid email address: " +:+ email))
  | Matched => Returns true
  end.

(** The address of a request is [None] or a string. *)
Definition validate_email_from_request (email : option string)
    : outcome (option string) :=
  if falsy_token email then
    Raises (mk_error EmailError "Missing email.")
  else
    match is_valid_email (token_str email) with
    | Raises e => Raises e
    | Returns valid =>
        if negb valid then
          Raises (mk_error EmailError "Invalid email address.")
        else Returns email
    end.

End WithRegex.

End RequestHelpers.

(** ** Sending the verification email (emails.py) *)

Module Emails.

(** What [send_email] and the mail client raise: [RuntimeError], the
    [KeyError] of a missing entry of the result, and any exception of the
    client, known by its [str()]. *)
Inductive error : Type :=
  | RuntimeError (msg : string)
  | KeyError (key : string)
  | ClientError (msg : string).

(** [str(ex)] *)
Definition error_str (e : error) : string :=
  match e with
  | RuntimeError msg => msg
  | KeyError key => "'" +:+ key +:+ "'"
  | ClientError msg => msg
  end.

Inductive outcome (A : Type) : Type :=
  | Returns (a : A)
  | Raises (e : error).
Arguments Returns {A} a.
Arguments Raises {A} e.

(** The message handed to the client. *)
Record message : Type := {
  content_subject : string;
  content_plainText : string;
  content_html : string;
  recipient_address : string;
  recipient_displayName : string;
  senderAddress : string
}.

(** The poller of a send operation, as it answers after a number of
    completed [wait] calls. *)
Record Poller : Type := {
  poller_done : nat -> outcome bool;
  poller_status : nat -> outcome string;
  poller_wait : nat -> outcome unit;
  poller_result : nat -> outcome (gmap string value)
}.

Record EmailClient : Type := {
  begin_send : message -> outcome Poller
}.

Definition POLLER_WAIT_TIME : Z := 10.

(** The [while not poller.done()] loop; [waits] counts the completed waits.
    It returns the number of waits after which the poller was done, and
    [None] only when [fuel] iterations were not enough. *)
Fixpoint poll_until_done (fuel : nat) (poller : Poller) (waits : nat)
    (time_elapsed : Z) : option (outcome nat) :=
  match fuel with
  | O => None
  | S fuel =>
      match poller_done poller waits with
      | Raises e => Some (Raises e)
      | Returns true => Some (Returns waits)
      | Returns false =>
          match poller_status poller waits with
          | Raises e => Some (Raises e)
          | Returns _ =>
              match poller_wait poller waits with
              | Raises e => Some (Raises e)
              | Returns _ =>
                  let time_elapsed := time_elapsed + POLLER_WAIT_TIME in
                  if 18 * POLLER_WAIT_TIME <? time_elapsed then
                    Some (Raises (RuntimeError "Polling timed out."))
                  else poll_until_done fuel poller (S waits) time_elapsed
              end
          end
      end
  end.

(** What follows the loop: the result of the poller is read. *)
Definition read_result (poller : Poller) (waits : nat)
    : outcome (gmap string value) :=
  match poller_result poller waits with
  | Raises e => Raises e
  | Returns result =>
      match result !! "status" with
      | None => Raises (KeyError "status")
      | Some status =>
          if bool_decide (status = VStr "Succeeded") then
            match result !! "id" with
            | None => Raises (KeyError "id")
            | Some id =>
                Returns {[ "status" := VStr "Succeeded";
                           "operation_id" := id ]}
            end
          else
            match result !! "error" with
            | None => Raises (KeyError "error")
            | Some err => Raises (RuntimeError (py_str err))
            end
      end
  end.

(** [except Exception as ex: raise RuntimeError(f"An error occurred: ...")] *)
Definition wrap_error {A} (r : outcome A) : outcome A :=
  match r with
  | Returns a => Returns a
  | Raises ex => Raises (RuntimeError ("An error occurred: " +:+ error_str ex))
  end.

Definition build_message (sender_email recipient_email subject body : string)
    (html_content : option string) : message :=
  {| content_subject := subject;
     content_plainText := body;
     content_html :=
       if falsy_token html_content then "<html><h1>" +:+ body +:+ "</h1></html>"
       else token_str html_content;
     recipient_address := recipient_email;
     recipient_displayName := "Customer Name";
     senderAddress := sender_email |}.

(** [from_connection_string] is called before the [try]: what it raises
    leaves [send_email] as it is. *)
Definition send_email (fuel : nat)
    (from_connection_string : string -> outcome EmailClient)
    (connection_string sender_email recipient_email subject body : string)
    (html_content : option string) : option (outcome (gmap string value)) :=
  match from_connection_string connection_string with
  | Raises e => Some (Raises e)
  | Returns email_client =>
      let message :=
        build_message sender_email recipient_email subject body html_content in
      match begin_send email_client message with
      | Raises e => Some (wrap_error (Raises e))
      | Returns poller =>
          match poll_until_done fuel poller 0 0 with
          | None => None
          | Some (Raises e) => Some (wrap_error (Raises e))
          | Some (Returns waits) => Some (wrap_error (read_result poller waits))
          end
      end
  end.

End Emails.

(** ** More of the concrete deployment

    Tokens, a web application, a regular expression matcher and mail
    clients on which the remaining functions can be run. *)

Module Scenario2.

(** A server-signed payload without expiration, and a client payload that
    names an application without a key file. *)
Definition undated_payload : gmap string value :=
  {[ "sub" := VStr "user@example.com";
     "redirect_url" := VStr "https://app.example/done" ]}.

Definition stranger_payload : gmap string value :=
  {[ "app_id" := VStr "app9";
     "redirect_url" := VStr "https://app.example/login";
     "expiration" := VInt 2000 ]}.

(** The library of [Scenario], knowing two tokens more. *)
Definition lib : JwtLibrary :=
  {| jwt_decode_unverified := fun token =>
       if String.eqb token "undated.jwt" then Ok undated_payload
       else if String.eqb token "stranger.jwt" then Ok stranger_payload
       else jwt_decode_unverified Scenario.lib token;
     jwt_decode := fun now token key alg =>
       if String.eqb token "undated.jwt" then
         if String.eqb key "SERVER-PUB" && String.eqb alg "RS256"
         then Ok undated_payload
         else raise PyJWT_InvalidSignatureError "Signature verification failed"
       else jwt_decode Scenario.lib now token key alg;
     jwt_encode := jwt_encode Scenario.lib |}.

(** A host whose local zone is UTC: 1970-01-01 is day 719162 of the naive
    calendar. *)
Definition epoch : naive_datetime := 719162 * 86400 * us_per_second.

Definition utc_host : Host :=
  {| naive_timestamp := fun d => Ok (d - epoch) |}.

(** What [datetime.utcnow()] returns 100 s and 100.5 s after the epoch. *)
Definition utcnow_100s : naive_datetime := epoch + 100 * us_per_second.
Definition utcnow_100s5 : naive_datetime := epoch + 100500000.

(** A matcher for patterns that are literal text: the pattern matches when
    it starts the string; an opening bracket alone does not compile. *)
Definition re_match (pattern s : string) : RequestHelpers.match_answer :=
  if String.eqb pattern "(" then
    RequestHelpers.BadPattern "missing ), unterminated subpattern"
  else if String.prefix pattern s then RequestHelpers.Matched
  else RequestHelpers.NoMatch.

(** A poller that is done after [n] waits with the given result. *)
Definition poller_after (n : nat) (result : gmap string value)
    : Emails.Poller :=
  {| Emails.poller_done := fun waits => Emails.Returns (bool_decide (n ≤ waits)%nat);
     Emails.poller_status := fun _ => Emails.Returns "InProgress";
     Emails.poller_wait := fun _ => Emails.Returns tt;
     Emails.poller_result := fun _ => Emails.Returns result |}.

Definition sent_result : gmap string value :=
  {[ "status" := VStr "Succeeded"; "id" := VStr "op-1" ]}.

Definition failed_result : gmap string value :=
  {[ "status" := VStr "Failed"; "error" := VStr "mailbox full" ]}.

(** A mail service whose operations take [n] waits and end with [result];
    the empty connection string is refused. *)
Definition service (n : nat) (result : gmap string value)
    (connection_string : string) : Emails.outcome Emails.EmailClient :=
  if String.eqb connection_string "" then
    Emails.Raises (Emails.ClientError "Connection string is either blank or malformed.")
  else
    Emails.Returns
      {| Emails.begin_send := fun _ => Emails.Returns (poller_after n result) |}.

End Scenario2.

(** ** Auxiliary facts *)

Lemma append_nonempty_neq (s t : string) : t ≠ "" → s +:+ t ≠ s.
Proof.
  intros Ht. induction s as [|a s IH]; simpl.
  - exact Ht.
  - intros Heq. injection Heq as Heq. exact (IH Heq).
Qed.

Lemma falsy_token_false (t : token_arg) :
  falsy_token t = false → ∃ s, t = Some s ∧ s ≠ "".
Proof.
  destruct t as [s|]; simpl; [|discriminate].
  intros H. exists s. split; [reflexivity|].
  intros ->. discriminate.
Qed.

Lemma try_except_Ok {A} (r : result A) classes handler (a : A) :
  (∀ e, ∀ b, handler e ≠ Ok b) →
  try_except r classes handler = Ok a → r = Ok a.
Proof.
  intros Hh. destruct r as [b|e]; simpl; [done|].
  destruct (existsb _ _); [|done].
  intros H. exfalso. exact (Hh _ _ H).
Qed.

(** A handler that raises what it caught changes nothing. *)
Lemma try_except_reraise {A} (r : result A) classes :
  try_except r classes (fun error => Raise error) = r.
Proof.
  destruct r as [a|e]; simpl; [reflexivity|].
  destruct (existsb _ _); reflexivity.
Qed.

Section Facts.

Context (cfg : Config) (lib : JwtLibrary) (os : FileSystem) (web : Quart)
  (now : clock).

Local Abbreviation decode_email := (decode_email_verification_token cfg lib os now).
Local Abbreviation decode_client := (decode_client_jwt_token cfg lib os now).
Local Abbreviation process_email :=
  (process_email_verification_token cfg lib os web now).
Local Abbreviation fallback :=
  (redirect_to_client_app_using_verification_token cfg lib os web now).

(** The email verifier once the token has passed the checks that come
    before the expiry check: the outcome is decided by the comparison of
    the timestamp with the expiration. *)
Lemma decode_email_checked token key_path blacklist payload n :
  falsy_token token = false →
  token ∉ blacklist →
  verified_payload cfg lib os now token key_path = Some payload →
  is_Some (payload !! redirect_url_field cfg) →
  expiration_of cfg payload = Some n →
  decode_email token key_path blacklist
  = if n * us_per_second <? now then Raise expired_error else Ok payload.
Proof.
  intros Hf Hbl Hv Hr He.
  unfold decode_email_verification_token, verified_payload, expiration_of in *.
  rewrite Hf. rewrite bool_decide_eq_false_2 by done.
  unfold open_read.
  destruct (read_text os key_path) as [[key|]|]; [|done|done].
  simpl. destruct (jwt_decode lib now _ key _) as [p|]; [|done].
  injection Hv as ->. simpl.
  rewrite bool_decide_eq_true_2 by done. simpl.
  unfold getitem. destruct (payload !! expiration_field cfg) as [v|]; [|done].
  simpl. unfold timestamp_gt. rewrite He. simpl.
  destruct (n * us_per_second <? now); reflexivity.
Qed.

(** What a successful email decode establishes. *)
Lemma decode_email_Ok token key_path blacklist payload :
  decode_email token key_path blacklist = Ok payload →
  falsy_token token = false
  ∧ (token ∉ blacklist)
  ∧ verified_payload cfg lib os now token key_path = Some payload
  ∧ is_Some (payload !! redirect_url_field cfg)
  ∧ unexpired cfg now payload = true.
Proof.
  unfold decode_email_verification_token, verified_payload, unexpired,
    expiration_of.
  destruct (falsy_token token); [done|].
  destruct (bool_decide (token ∈ blacklist)) eqn:Hbl; [done|].
  apply bool_decide_eq_false in Hbl.
  unfold open_read.
  destruct (read_text os key_path) as [[key|]|]; [|done|done].
  simpl. intros H. apply try_except_Ok in H; [|done].
  destruct (jwt_decode lib now _ key _) as [p|]; [|done]. simpl in H.
  destruct (bool_decide (is_Some (p !! redirect_url_field cfg))) eqn:Hr;
    [|done].
  apply bool_decide_eq_true in Hr. simpl in H.
  unfold getitem in H. destruct (p !! expiration_field cfg) as [v|] eqn:Hv;
    [|done].
  simpl in H. unfold timestamp_gt in H.
  destruct (as_number v) as [n|] eqn:Hn; [|done]. simpl in H.
  destruct (n * us_per_second <? now) eqn:Hlt; [done|].
  injection H as <-. rewrite Hv, Hn.
  repeat split; try done.
  apply bool_decide_eq_true. apply Z.ltb_ge in Hlt. exact Hlt.
Qed.

(** The primary path in terms of the decode it starts with: after a decode
    that succeeds the token is in the blacklist, and the outcome is what
    [redirect] makes of the target. *)
Lemma process_email_Ok_decode token key_path blacklist payload :
  decode_email token key_path blacklist = Ok payload →
  ∃ url, payload !! redirect_url_field cfg = Some url
  ∧ process_email token key_path blacklist
    = (quart_redirect web
         (VStr (py_str url +:+ "?token=" +:+ token_str token)) (Some 302),
       {[ token ]} ∪ blacklist).
Proof.
  intros Hd. destruct (decode_email_Ok _ _ _ _ Hd) as (_ & _ & _ & [url Hu] & _).
  exists url. split; [done|].
  unfold process_email_verification_token. rewrite Hd.
  rewrite try_except_reraise. unfold getitem. rewrite Hu. reflexivity.
Qed.

Lemma process_email_Raise_decode token key_path blacklist e :
  decode_email token key_path blacklist = Raise e →
  process_email token key_path blacklist = (Raise e, blacklist).
Proof.
  intros Hd. unfold process_email_verification_token. rewrite Hd.
  rewrite try_except_reraise. reflexivity.
Qed.

(** The client verifier up to the verified decode. *)
Lemma decode_client_verified token keys_directory payload :
  falsy_token token = false →
  client_verified_payload cfg lib os now token keys_directory = Some payload →
  decode_client token keys_directory
  = try_except
      (let* redirect_url := getitem payload (redirect_url_field cfg) in
       if negb (truthy redirect_url) then
         raise JWTError "No redirect URL found in Token."
       else
         let* expired_time := getitem payload (expiration_field cfg) in
         let* is_expired := int_gt (int_timestamp now) expired_time in
         if is_expired : bool then raise JWTExpired "JWT token has expired."
         else Ok payload)
      [PyJWT_InvalidTokenError; PyJWT_DecodeError]
      (fun error => raise JWTError (exn_msg error)).
Proof.
  intros Hf Hv.
  unfold decode_client_jwt_token, client_verified_payload, verified_payload in *.
  rewrite Hf.
  destruct (jwt_decode_unverified lib _) as [u|]; [|done]. simpl.
  destruct (u !! app_id_field cfg) as [a|]; [|done].
  unfold path_exists, open_read.
  destruct (read_text os _) as [[key|]|]; [|done|done].
  rewrite bool_decide_eq_true_2 by eauto. simpl.
  destruct (jwt_decode lib now _ key _) as [p|]; [|done].
  injection Hv as ->. reflexivity.
Qed.

(** The client verifier once the token has passed the checks that come
    before the expiry check. *)
Lemma decode_client_checked token keys_directory payload url n :
  falsy_token token = false →
  client_verified_payload cfg lib os now token keys_directory = Some payload →
  payload !! redirect_url_field cfg = Some url →
  truthy url = true →
  expiration_of cfg payload = Some n →
  decode_client token keys_directory
  = if n <? int_timestamp now then Raise expired_error else Ok payload.
Proof.
  intros Hf Hv Hu Ht He.
  rewrite (decode_client_verified _ _ _ Hf Hv).
  unfold getitem, expiration_of, int_gt in *. rewrite Hu. simpl. rewrite Ht.
  simpl. destruct (payload !! expiration_field cfg) as [v|]; [|done].
  simpl. rewrite He. simpl.
  destruct (n <? int_timestamp now); reflexivity.
Qed.

(** A verified client payload without the redirect field: the subscript
    raises [KeyError], which no handler of the verifier catches. *)
Lemma decode_client_redirect_absent token keys_directory payload :
  falsy_token token = false →
  client_verified_payload cfg lib os now token keys_directory = Some payload →
  payload !! redirect_url_field cfg = None →
  decode_client token keys_directory
  = Raise (mk_exn KeyError (redirect_url_field cfg)).
Proof.
  intros Hf Hv Hu. rewrite (decode_client_verified _ _ _ Hf Hv).
  unfold getitem. rewrite Hu. reflexivity.
Qed.

(** A verified client payload with a falsy redirect field. *)
Lemma decode_client_redirect_empty token keys_directory payload url :
  falsy_token token = false →
  client_verified_payload cfg lib os now token keys_directory = Some payload →
  payload !! redirect_url_field cfg = Some url →
  truthy url = false →
  decode_client token keys_directory
  = Raise (mk_exn JWTError "No redirect URL found in Token.").
Proof.
  intros Hf Hv Hu Ht. rewrite (decode_client_verified _ _ _ Hf Hv).
  unfold getitem. rewrite Hu. simpl. rewrite Ht. reflexivity.
Qed.

(** Every exception is an [Exception]. *)
Lemma isinstance_Exception (e : exn) : isinstance e Exception = true.
Proof. destruct e as [[] msg]; reflexivity. Qed.

(** The client flow raises nothing but [InvalidClientTokenError]. *)
Lemma login_redirect_collapses token keys_directory frontend :
  (∃ resp,
     login_redirect_with_client_jwt cfg lib os web now token keys_directory
       frontend
     = Ok resp)
  ∨ login_redirect_with_client_jwt cfg lib os web now token keys_directory
      frontend
    = Raise (mk_exn InvalidClientTokenError
               "Failed to decode client application token.").
Proof.
  unfold login_redirect_with_client_jwt.
  destruct (decode_client token keys_directory) as [p|e]; simpl.
  - destruct (quart_redirect web _ None) as [resp|e]; simpl.
    + left. eauto.
    + right. rewrite isinstance_Exception. reflexivity.
  - right. rewrite isinstance_Exception. reflexivity.
Qed.


Lemma fallback_first_Raise token key_path blacklist e blacklist' :
  process_email token key_path blacklist = (Raise e, blacklist') →
  isinstance e BlacklistedTokenError = false →
  fallback token key_path blacklist = (Raise e, blacklist').
Proof.
  intros Hp Hb. unfold redirect_to_client_app_using_verification_token.
  rewrite Hp, Hb. destruct (isinstance e InvalidTokenError); reflexivity.
Qed.

Lemma fallback_blacklisted token key_path blacklist :
  falsy_token token = false →
  token ∈ blacklist →
  fallback token key_path blacklist
  = (try_except
       (let* verification_decoded_token := decode_email token key_path ∅ in
        let* redirect_url :=
          getitem verification_decoded_token (redirect_url_field cfg) in
        quart_redirect web redirect_url None)
       [InvalidTokenError; BlacklistedTokenError]
       (fun error =>
          raise InvalidEmailTokenError
            "Failed to decode client application token."),
     blacklist).
Proof.
  intros Hf Hin.
  assert (decode_email token key_path blacklist
          = Raise (mk_exn BlacklistedTokenError
                     "This token has been blacklisted.")) as Hd.
  { unfold decode_email_verification_token. rewrite Hf.
    rewrite bool_decide_eq_true_2 by done. reflexivity. }
  unfold redirect_to_client_app_using_verification_token.
  rewrite (process_email_Raise_decode _ _ _ _ Hd). reflexivity.
Qed.

End Facts.

(** ** Acceptance of email-verification tokens *)

(** C1, as the code has it.  [decode_email_verification_token] and
    [process_email_verification_token] accept a token only if it is absent
    from the blacklist, its signature verifies under the server public key
    and its expiration has not passed.  The fallback wrapper
    [redirect_to_client_app_using_verification_token] accepts a token only
    if its signature verifies and its expiration has not passed: absence
    from the blacklist is not required there. *)
Theorem C1_accepted_only_if_checked cfg lib os web now token key_path
    blacklist :
  (∀ payload,
     decode_email_verification_token cfg lib os now token key_path blacklist
     = Ok payload →
     (token ∉ blacklist)
     ∧ verified_payload cfg lib os now token key_path = Some payload
     ∧ unexpired cfg now payload = true)
  ∧ (∀ resp blacklist',
       process_email_verification_token cfg lib os web now token key_path
         blacklist
       = (Ok resp, blacklist') →
       (token ∉ blacklist)
       ∧ ∃ payload,
           verified_payload cfg lib os now token key_path = Some payload
           ∧ unexpired cfg now payload = true)
  ∧ (∀ resp blacklist',
       redirect_to_client_app_using_verification_token
         cfg lib os web now token key_path blacklist
       = (Ok resp, blacklist') →
       ∃ payload,
         verified_payload cfg lib os now token key_path = Some payload
         ∧ unexpired cfg now payload = true).
Proof.
  split; [|split].
  - intros payload Hd.
    destruct (decode_email_Ok _ _ _ _ _ _ _ _ Hd) as (_ & Hbl & Hv & _ & Hu).
    done.
  - intros resp bl' Hp.
    destruct (decode_email_verification_token cfg lib os now token key_path
                blacklist) as [payload|e] eqn:Hd.
    + destruct (decode_email_Ok _ _ _ _ _ _ _ _ Hd) as (_ & Hbl & Hv & _ & Hu).
      eauto.
    + rewrite (process_email_Raise_decode _ _ _ web _ _ _ _ _ Hd) in Hp.
      discriminate.
  - intros resp bl' Hp.
    destruct (decode_email_verification_token cfg lib os now token key_path
                blacklist) as [payload|e] eqn:Hd.
    + destruct (decode_email_Ok _ _ _ _ _ _ _ _ Hd) as (_ & Hbl & Hv & _ & Hu).
      eauto.
    + unfold redirect_to_client_app_using_verification_token in Hp.
      rewrite (process_email_Raise_decode _ _ _ web _ _ _ _ _ Hd) in Hp.
      destruct (isinstance e BlacklistedTokenError).
      2:{ destruct (isinstance e InvalidTokenError); discriminate. }
      injection Hp as Hp _. apply try_except_Ok in Hp; [|done].
      destruct (decode_email_verification_token cfg lib os now token key_path ∅)
        as [payload|] eqn:Hd2; [|done].
      destruct (decode_email_Ok _ _ _ _ _ _ _ _ Hd2) as (_ & _ & Hv & _ & Hu).
      eauto.
Qed.

(** The three operations accept a fresh, unspent token of the deployment,
    and the facts of C1 hold of it. *)
Lemma C1_accepted_only_if_checked_witness :
  (Some "fresh.jwt" ∉ (∅ : gset token_arg))
  ∧ verified_payload Scenario.cfg Scenario.lib Scenario.os Scenario.at_100s
      (Some "fresh.jwt") "/server/public.pem" = Some Scenario.fresh_payload
  ∧ unexpired Scenario.cfg Scenario.at_100s Scenario.fresh_payload = true.
Proof.
  destruct (C1_accepted_only_if_checked Scenario.cfg Scenario.lib Scenario.os
              Scenario.web Scenario.at_100s (Some "fresh.jwt")
              "/server/public.pem" ∅)
    as (Hdecode & _ & _).
  apply Hdecode. vm_compute. reflexivity.
Defined.

(** C1 as stated fails for the fallback wrapper: a token that is in the
    blacklist is accepted, and a redirect is returned. *)
Lemma C1_fallback_accepts_blacklisted :
  let blacklist : gset token_arg := {[ Some "fresh.jwt" ]} in
  Some "fresh.jwt" ∈ blacklist
  ∧ redirect_to_client_app_using_verification_token
      Scenario.cfg Scenario.lib Scenario.os Scenario.web Scenario.at_100s
      (Some "fresh.jwt") "/server/public.pem" blacklist
    = (Ok (redirect (VStr "https://app.example/done") 302), blacklist).
Proof.
  split.
  - apply elem_of_singleton. reflexivity.
  - vm_compute. reflexivity.
Qed.

(** ** The fallback wrapper *)

(** C2, evaluated where the code leaves the claim.  A token that is not
    blacklisted and whose signature does not verify makes the first attempt
    fail with [InvalidTokenError]: the wrapper raises that error again and
    makes no second attempt.  A token that is blacklisted and has expired
    gets its second attempt, which fails with [JWTExpired]: that error
    leaves the wrapper as it is, not as [InvalidEmailTokenError]. *)
Theorem C2_fallback_outside_claim :
  redirect_to_client_app_using_verification_token
    Scenario.cfg Scenario.lib Scenario.os Scenario.web Scenario.at_100s
    (Some "forged.jwt") "/server/public.pem" ∅
  = (Raise (mk_exn InvalidTokenError "Signature verification failed"), ∅)
  ∧ redirect_to_client_app_using_verification_token
      Scenario.cfg Scenario.lib Scenario.os Scenario.web Scenario.at_100s
      (Some "stale.jwt") "/server/public.pem" {[ Some "stale.jwt" ]}
    = (Raise (mk_exn JWTExpired "JWT token has expired."),
       {[ Some "stale.jwt" ]}).
Proof. split; vm_compute; reflexivity. Qed.

(** ** Expiry *)

(** C3, as the code has it.  A token that has passed the checks made before
    the expiry check, and whose expiration is strictly less than the current
    time, fails with [JWTExpired].  On the email path the checks are: token
    not empty, not blacklisted, signature verified under the server key,
    redirect field present; the current time is the timestamp.  On the
    client path: token not empty, signature verified under the key of the
    application it names, redirect field not empty; the current time is the
    timestamp truncated to whole seconds. *)
Theorem C3_expired_after_checks cfg lib os now token payload n :
  falsy_token token = false →
  expiration_of cfg payload = Some n →
  (∀ key_path blacklist,
     token ∉ blacklist →
     verified_payload cfg lib os now token key_path = Some payload →
     is_Some (payload !! redirect_url_field cfg) →
     n * us_per_second < now →
     decode_email_verification_token cfg lib os now token key_path blacklist
     = Raise (mk_exn JWTExpired "JWT token has expired."))
  ∧ (∀ keys_directory url,
       client_verified_payload cfg lib os now token keys_directory
       = Some payload →
       payload !! redirect_url_field cfg = Some url →
       truthy url = true →
       n < int_timestamp now →
       decode_client_jwt_token cfg lib os now token keys_directory
       = Raise (mk_exn JWTExpired "JWT token has expired.")).
Proof.
  intros Hf He. split.
  - intros key_path blacklist Hbl Hv Hr Hlt.
    rewrite (decode_email_checked _ _ _ _ _ _ _ _ _ Hf Hbl Hv Hr He).
    apply Z.ltb_lt in Hlt. rewrite Hlt. reflexivity.
  - intros keys_directory url Hv Hu Ht Hlt.
    rewrite (decode_client_checked _ _ _ _ _ _ _ _ _ Hf Hv Hu Ht He).
    apply Z.ltb_lt in Hlt. rewrite Hlt. reflexivity.
Qed.

(** A server-signed token that expired at 50 s is refused at 100 s, and a
    client token that expired at 100 s is refused at 101 s. *)
Lemma C3_expired_after_checks_witness :
  decode_email_verification_token Scenario.cfg Scenario.lib Scenario.os
    Scenario.at_100s (Some "stale.jwt") "/server/public.pem" ∅
  = Raise (mk_exn JWTExpired "JWT token has expired.")
  ∧ decode_client_jwt_token Scenario.cfg Scenario.lib Scenario.os
      Scenario.at_101s (Some "client.jwt") "/keys"
    = Raise (mk_exn JWTExpired "JWT token has expired.").
Proof.
  split.
  - refine (proj1 (C3_expired_after_checks Scenario.cfg Scenario.lib
                     Scenario.os Scenario.at_100s (Some "stale.jwt")
                     Scenario.stale_payload 50 _ _)
              "/server/public.pem" ∅ _ _ _ _).
    + reflexivity.
    + vm_compute. reflexivity.
    + apply not_elem_of_empty.
    + vm_compute. reflexivity.
    + vm_compute. eauto.
    + vm_compute. reflexivity.
  - refine (proj2 (C3_expired_after_checks Scenario.cfg Scenario.lib
                     Scenario.os Scenario.at_101s (Some "client.jwt")
                     Scenario.client_payload 100 _ _)
              "/keys" (VStr "https://app.example/login") _ _ _ _).
    + reflexivity.
    + vm_compute. reflexivity.
    + vm_compute. reflexivity.
    + vm_compute. reflexivity.
    + reflexivity.
    + vm_compute. reflexivity.
Defined.

(** C3 as stated fails in two ways.  A token whose expiration (50 s) is
    less than the current time (100 s) and whose signature does not verify
    fails with the signature error, not with [JWTExpired], on the email path
    and on the client path.  And on the client path a correctly signed token
    whose expiration (100 s) is less than the current time (100.5 s) is
    accepted. *)
Lemma C3_expired_not_always_reported :
  jwt_decode_unverified Scenario.lib "forged.jwt" = Ok Scenario.stale_payload
  ∧ expiration_of Scenario.cfg Scenario.stale_payload = Some 50
  ∧ 50 * us_per_second < Scenario.at_100s
  ∧ decode_email_verification_token Scenario.cfg Scenario.lib Scenario.os
      Scenario.at_100s (Some "forged.jwt") "/server/public.pem" ∅
    = Raise (mk_exn InvalidTokenError "Signature verification failed")
  ∧ jwt_decode_unverified Scenario.lib "client-forged.jwt"
    = Ok Scenario.client_payload
  ∧ expiration_of Scenario.cfg Scenario.client_payload = Some 100
  ∧ 100 * us_per_second < Scenario.at_100s5
  ∧ decode_client_jwt_token Scenario.cfg Scenario.lib Scenario.os
      Scenario.at_100s5 (Some "client-forged.jwt") "/keys"
    = Raise (mk_exn JWTError "Signature verification failed")
  ∧ decode_client_jwt_token Scenario.cfg Scenario.lib Scenario.os
      Scenario.at_100s5 (Some "client.jwt") "/keys"
    = Ok Scenario.client_payload.
Proof. repeat split; vm_compute; reflexivity. Qed.

(** C4, as the code has it.  Once a token has passed the checks made before
    the expiry check, the outcome is decided by a strict comparison with the
    expiration [n] of the payload.  On the email path the token is expired
    exactly when the timestamp is greater than [n].  On the client path the
    timestamp is first truncated to whole seconds, and the token is expired
    exactly when that integer is greater than [n].  On both paths a token
    whose expiration equals the time compared is still valid. *)
Theorem C4_strict_expiry cfg lib os now token payload n :
  falsy_token token = false →
  expiration_of cfg payload = Some n →
  (∀ key_path blacklist,
     token ∉ blacklist →
     verified_payload cfg lib os now token key_path = Some payload →
     is_Some (payload !! redirect_url_field cfg) →
     (n * us_per_second < now ↔
        decode_email_verification_token cfg lib os now token key_path blacklist
        = Raise (mk_exn JWTExpired "JWT token has expired."))
     ∧ (now ≤ n * us_per_second ↔
          decode_email_verification_token cfg lib os now token key_path blacklist
          = Ok payload))
  ∧ (∀ keys_directory url,
       client_verified_payload cfg lib os now token keys_directory
       = Some payload →
       payload !! redirect_url_field cfg = Some url →
       truthy url = true →
       (n < int_timestamp now ↔
          decode_client_jwt_token cfg lib os now token keys_directory
          = Raise (mk_exn JWTExpired "JWT token has expired."))
       ∧ (int_timestamp now ≤ n ↔
            decode_client_jwt_token cfg lib os now token keys_directory
            = Ok payload)).
Proof.
  intros Hf He. split.
  - intros key_path blacklist Hbl Hv Hr.
    rewrite (decode_email_checked _ _ _ _ _ _ _ _ _ Hf Hbl Hv Hr He).
    destruct (Z.ltb_spec (n * us_per_second) now) as [Hlt|Hge].
    + split; split; intros H; try done; try lia.
    + split; split; intros H; try done; try lia.
  - intros keys_directory url Hv Hu Ht.
    rewrite (decode_client_checked _ _ _ _ _ _ _ _ _ Hf Hv Hu Ht He).
    destruct (Z.ltb_spec n (int_timestamp now)) as [Hlt|Hge].
    + split; split; intros H; try done; try lia.
    + split; split; intros H; try done; try lia.
Qed.

(** At 100 s exactly a client token that expires at 100 s is still valid,
    and so is, at 50 s exactly, an email token that expires at 50 s. *)
Lemma C4_strict_expiry_witness :
  decode_client_jwt_token Scenario.cfg Scenario.lib Scenario.os
    Scenario.at_100s (Some "client.jwt") "/keys"
  = Ok Scenario.client_payload
  ∧ decode_email_verification_token Scenario.cfg Scenario.lib Scenario.os
      Scenario.at_50s (Some "stale.jwt") "/server/public.pem" ∅
    = Ok Scenario.stale_payload.
Proof.
  split.
  - refine (proj1 (proj2 (proj2 (C4_strict_expiry Scenario.cfg Scenario.lib
                     Scenario.os Scenario.at_100s (Some "client.jwt")
                     Scenario.client_payload 100 _ _)
                     "/keys" (VStr "https://app.example/login") _ _ _)) _).
    + reflexivity.
    + vm_compute. reflexivity.
    + vm_compute. reflexivity.
    + vm_compute. reflexivity.
    + reflexivity.
    + vm_compute. discriminate.
  - refine (proj1 (proj2 (proj1 (C4_strict_expiry Scenario.cfg Scenario.lib
                     Scenario.os Scenario.at_50s (Some "stale.jwt")
                     Scenario.stale_payload 50 _ _)
                     "/server/public.pem" ∅ _ _ _)) _).
    + reflexivity.
    + vm_compute. reflexivity.
    + apply not_elem_of_empty.
    + vm_compute. reflexivity.
    + vm_compute. eauto.
    + vm_compute. discriminate.
Defined.

(** C4 as stated fails on the client path: at 100.5 s the current time is
    greater than the expiration 100 s, and the token is still accepted. *)
Lemma C4_client_compares_whole_seconds :
  expiration_of Scenario.cfg Scenario.client_payload = Some 100
  ∧ 100 * us_per_second < Scenario.at_100s5
  ∧ decode_client_jwt_token Scenario.cfg Scenario.lib Scenario.os
      Scenario.at_100s5 (Some "client.jwt") "/keys"
    = Ok Scenario.client_payload.
Proof. repeat split; vm_compute; reflexivity. Qed.

(** ** Issuing and verifying: the round trip *)

(** C5.  Take a payload that has the redirect field and an integer
    expiration that has not passed, a private key file and a public key
    file, and a JWT library that signs the payload into a token (never the
    empty string) which it decodes back under the public key.  Then
    [encode_email_verification_token] returns that token, and
    [decode_email_verification_token] with an empty blacklist returns the
    payload. *)
Theorem C5_email_token_round_trip cfg lib os now payload
    private_path public_path private_key public_key token url n :
  read_text os private_path = Some (Ok private_key) →
  read_text os public_path = Some (Ok public_key) →
  jwt_encode lib payload private_key (algorithm cfg) = Ok token →
  token ≠ "" →
  jwt_decode lib now token public_key (algorithm cfg) = Ok payload →
  payload !! redirect_url_field cfg = Some url →
  payload !! expiration_field cfg = Some (VInt n) →
  now ≤ n * us_per_second →
  encode_email_verification_token cfg lib os payload private_path = Ok token
  ∧ (let* encoded :=
       encode_email_verification_token cfg lib os payload private_path in
     decode_email_verification_token cfg lib os now (Some encoded) public_path ∅)
    = Ok payload.
Proof.
  intros Hpriv Hpub Henc Hne Hdec Hu He Hnow.
  assert (encode_email_verification_token cfg lib os payload private_path
          = Ok token) as Hencode.
  { unfold encode_email_verification_token, path_exists, open_read.
    rewrite Hpriv. rewrite bool_decide_eq_true_2 by eauto. simpl.
    rewrite Henc. reflexivity. }
  split; [exact Hencode|]. rewrite Hencode. simpl.
  rewrite (decode_email_checked cfg lib os now (Some token) public_path ∅
             payload n).
  - destruct (Z.ltb_spec (n * us_per_second) now); [lia|reflexivity].
  - simpl. apply String.eqb_neq. exact Hne.
  - apply not_elem_of_empty.
  - unfold verified_payload. rewrite Hpub. simpl. rewrite Hdec. reflexivity.
  - rewrite Hu. eauto.
  - unfold expiration_of. rewrite He. reflexivity.
Qed.

(** The payload of the deployment, issued and verified at 100 s. *)
Lemma C5_email_token_round_trip_witness :
  encode_email_verification_token Scenario.cfg Scenario.lib Scenario.os
    Scenario.fresh_payload "/server/private.pem" = Ok "fresh.jwt"
  ∧ (let* encoded :=
       encode_email_verification_token Scenario.cfg Scenario.lib Scenario.os
         Scenario.fresh_payload "/server/private.pem" in
     decode_email_verification_token Scenario.cfg Scenario.lib Scenario.os
       Scenario.at_100s (Some encoded) "/server/public.pem" ∅)
    = Ok Scenario.fresh_payload.
Proof.
  apply (C5_email_token_round_trip Scenario.cfg Scenario.lib Scenario.os
           Scenario.at_100s Scenario.fresh_payload
           "/server/private.pem" "/server/public.pem"
           "SERVER-PRIV" "SERVER-PUB" "fresh.jwt"
           (VStr "https://app.example/done") 2000).
  - reflexivity.
  - reflexivity.
  - vm_compute. reflexivity.
  - discriminate.
  - vm_compute. reflexivity.
  - vm_compute. reflexivity.
  - vm_compute. reflexivity.
  - vm_compute. discriminate.
Defined.

(** ** The redirect field of a client token *)

(** C6, evaluated where the code leaves the claim.  A client token whose
    signature verifies and whose payload has no redirect field makes
    [decode_client_jwt_token] raise [KeyError], which is not a [JWTError].
    (With the field present and empty the verifier raises [JWTError].) *)
Theorem C6_client_missing_redirect_raises_KeyError :
  client_verified_payload Scenario.cfg Scenario.lib Scenario.os
    Scenario.at_100s (Some "client-noredirect.jwt") "/keys"
  = Some Scenario.client_no_redirect_payload
  ∧ Scenario.client_no_redirect_payload !! redirect_url_field Scenario.cfg = None
  ∧ decode_client_jwt_token Scenario.cfg Scenario.lib Scenario.os
      Scenario.at_100s (Some "client-noredirect.jwt") "/keys"
    = Raise (mk_exn KeyError "redirect_url")
  ∧ isinstance (mk_exn KeyError "redirect_url") JWTError = false
  ∧ decode_client_jwt_token Scenario.cfg Scenario.lib Scenario.os
      Scenario.at_100s (Some "client-emptyredirect.jwt") "/keys"
    = Raise (mk_exn JWTError "No redirect URL found in Token.").
Proof. repeat split; vm_compute; reflexivity. Qed.

(** ** Empty tokens *)

(** C7, as the code has it.  Whatever the JWT library, the key store, the
    configuration and the clock are, both verifiers answer a falsy token
    ([None] or the empty string) with
    [JWTError("No JWT token provided in query parameters.")]: an exception
    of the base class [JWTError], raised before any decoding or key lookup
    could have a say. *)
Theorem C7_falsy_token_rejected_first cfg lib os now token
    keys_directory key_path blacklist :
  falsy_token token = true →
  decode_client_jwt_token cfg lib os now token keys_directory
  = Raise missing_token_error
  ∧ decode_email_verification_token cfg lib os now token key_path blacklist
    = Raise missing_token_error.
Proof.
  intros Hf. unfold decode_client_jwt_token, decode_email_verification_token.
  rewrite Hf. split; reflexivity.
Qed.

(** No token at all, in a deployment where even the empty string is
    blacklisted. *)
Lemma C7_falsy_token_rejected_first_witness :
  decode_client_jwt_token Scenario.cfg Scenario.lib Scenario.os
    Scenario.at_100s None "/keys"
  = Raise missing_token_error
  ∧ decode_email_verification_token Scenario.cfg Scenario.lib Scenario.os
      Scenario.at_100s None "/server/public.pem" {[ None; Some "" ]}
    = Raise missing_token_error.
Proof.
  apply (C7_falsy_token_rejected_first Scenario.cfg Scenario.lib Scenario.os
           Scenario.at_100s None "/keys" "/server/public.pem"
           {[ None; Some "" ]}).
  reflexivity.
Defined.

(** C7 as stated fails in the kind of the error: the exception raised for
    an empty token has the class that is raised for a token without redirect
    field too, the base class [JWTError]; there is no class of its own for a
    missing token. *)
Lemma C7_missing_token_kind_not_distinct :
  ∃ e_missing e_other,
    decode_email_verification_token Scenario.cfg Scenario.lib Scenario.os
      Scenario.at_100s (Some "") "/server/public.pem" ∅
    = Raise e_missing
    ∧ decode_email_verification_token Scenario.cfg Scenario.lib Scenario.os
        Scenario.at_100s (Some "noredirect.jwt") "/server/public.pem" ∅
      = Raise e_other
    ∧ falsy_token (Some "noredirect.jwt") = false
    ∧ exn_cls e_missing = JWTError
    ∧ exn_cls e_other = exn_cls e_missing.
Proof.
  exists missing_token_error,
    (mk_exn JWTError "No redirect URL found in token.").
  repeat split; vm_compute; reflexivity.
Qed.

(** ** The outer boundary *)

(** C8, evaluated where the code leaves the claim.  Out of
    [redirect_to_client_app_using_verification_token] come, unchanged:
    the [JWTError] of an empty token, the [InvalidTokenError] of a token
    whose signature does not verify, and the [JWTExpired] of an expired
    token.  None of them is an [InvalidEmailTokenError]. *)
Theorem C8_email_boundary_lets_errors_out :
  redirect_to_client_app_using_verification_token
    Scenario.cfg Scenario.lib Scenario.os Scenario.web Scenario.at_100s
    None "/server/public.pem" ∅
  = (Raise (mk_exn JWTError "No JWT token provided in query parameters."), ∅)
  ∧ redirect_to_client_app_using_verification_token
      Scenario.cfg Scenario.lib Scenario.os Scenario.web Scenario.at_100s
      (Some "garbage") "/server/public.pem" ∅
    = (Raise (mk_exn InvalidTokenError "Not enough segments"), ∅)
  ∧ redirect_to_client_app_using_verification_token
      Scenario.cfg Scenario.lib Scenario.os Scenario.web Scenario.at_100s
      (Some "stale.jwt") "/server/public.pem" ∅
    = (Raise (mk_exn JWTExpired "JWT token has expired."), ∅)
  ∧ isinstance (mk_exn JWTError "No JWT token provided in query parameters.")
      InvalidEmailTokenError = false
  ∧ isinstance (mk_exn InvalidTokenError "Not enough segments")
      InvalidEmailTokenError = false
  ∧ isinstance (mk_exn JWTExpired "JWT token has expired.")
      InvalidEmailTokenError = false.
Proof. repeat split; vm_compute; reflexivity. Qed.

(** ** Consumption of a token *)

(** C9, as the code has it.  When the decode of the token fails,
    [process_email_verification_token] raises that error and the blacklist
    is as it was before the call.  The token is added to the blacklist only
    after its decode has succeeded; from then on it is in the blacklist
    whatever [redirect] makes of the target, a response or an exception. *)
Theorem C9_blacklist_changes_only_on_success cfg lib os web now token key_path
    blacklist outcome blacklist' :
  process_email_verification_token cfg lib os web now token key_path blacklist
  = (outcome, blacklist') →
  (∃ error,
     decode_email_verification_token cfg lib os now token key_path blacklist
     = Raise error
     ∧ outcome = Raise error
     ∧ blacklist' = blacklist)
  ∨ (∃ payload url,
       decode_email_verification_token cfg lib os now token key_path blacklist
       = Ok payload
       ∧ payload !! redirect_url_field cfg = Some url
       ∧ outcome
         = quart_redirect web
             (VStr (py_str url +:+ "?token=" +:+ token_str token)) (Some 302)
       ∧ blacklist' = {[ token ]} ∪ blacklist).
Proof.
  intros Hp.
  destruct (decode_email_verification_token cfg lib os now token key_path
              blacklist) as [payload|e] eqn:Hd.
  - destruct (process_email_Ok_decode _ _ _ web _ _ _ _ _ Hd)
      as (url & Hu & Hp').
    rewrite Hp' in Hp. injection Hp as <- <-. right. eauto 10.
  - rewrite (process_email_Raise_decode _ _ _ web _ _ _ _ _ Hd) in Hp.
    injection Hp as <- <-. left. eauto.
Qed.

(** An expired token, submitted with a blacklist of one spent token: the
    first case of C9 holds, the decode failed and the blacklist is as it
    was. *)
Lemma C9_blacklist_changes_only_on_success_witness :
  (∃ error,
     decode_email_verification_token Scenario.cfg Scenario.lib Scenario.os
       Scenario.at_100s (Some "stale.jwt") "/server/public.pem"
       {[ Some "fresh.jwt" ]}
     = Raise error
     ∧ (Raise expired_error : result response) = Raise error
     ∧ ({[ Some "fresh.jwt" ]} : gset token_arg) = {[ Some "fresh.jwt" ]})
  ∨ (∃ payload url,
       decode_email_verification_token Scenario.cfg Scenario.lib Scenario.os
         Scenario.at_100s (Some "stale.jwt") "/server/public.pem"
         {[ Some "fresh.jwt" ]}
       = Ok payload
       ∧ payload !! redirect_url_field Scenario.cfg = Some url
       ∧ Raise expired_error
         = quart_redirect Scenario.web
             (VStr (py_str url +:+ "?token=" +:+ token_str (Some "stale.jwt")))
             (Some 302)
       ∧ ({[ Some "fresh.jwt" ]} : gset token_arg)
         = {[ Some "stale.jwt" ]} ∪ {[ Some "fresh.jwt" ]}).
Proof.
  apply (C9_blacklist_changes_only_on_success Scenario.cfg Scenario.lib
           Scenario.os Scenario.web Scenario.at_100s (Some "stale.jwt")
           "/server/public.pem" {[ Some "fresh.jwt" ]}
           (Raise expired_error) {[ Some "fresh.jwt" ]}).
  vm_compute. reflexivity.
Defined.

(** C9 as stated fails when the exception comes after the decode.  The
    redirect URL of this correctly signed, unexpired token has a line feed
    in it: [redirect] refuses it with [ValueError], so the call raises, and
    the token is in the blacklist that was empty before. *)
Lemma C9_raises_after_blacklisting :
  process_email_verification_token Scenario.cfg Scenario.lib Scenario.os
    Scenario.web Scenario.at_100s (Some "linefeed.jwt") "/server/public.pem" ∅
  = (Raise (mk_exn ValueError
              "Header values must not contain newline characters."),
     {[ Some "linefeed.jwt" ]})
  ∧ ({[ Some "linefeed.jwt" ]} : gset token_arg) ≠ ∅.
Proof.
  split.
  - vm_compute. reflexivity.
  - intros H. assert (Some "linefeed.jwt" ∈ (∅ : gset token_arg)) as Hin.
    { rewrite <- H. apply elem_of_singleton. reflexivity. }
    exact (not_elem_of_empty _ Hin).
Qed.

(** ** The two redirect targets of the email flow *)

(** C10.  For a token whose payload carries the redirect URL [url]: the
    primary path hands [redirect] the target [url] followed by [?token=] and
    the raw token, with status 302, and returns the response it builds; the
    fallback path, taken when the token is blacklisted, hands [redirect] the
    target [url] as it is, and returns the response it builds; and the two
    targets differ. *)
Theorem C10_two_redirect_targets cfg lib os web now token key_path payload
    url :
  payload !! redirect_url_field cfg = Some url →
  (∀ blacklist resp,
     decode_email_verification_token cfg lib os now token key_path blacklist
     = Ok payload →
     quart_redirect web
       (VStr (py_str url +:+ "?token=" +:+ token_str token)) (Some 302)
     = Ok resp →
     fst (process_email_verification_token cfg lib os web now token key_path
            blacklist)
     = Ok resp)
  ∧ (∀ blacklist resp,
       token ∈ blacklist →
       decode_email_verification_token cfg lib os now token key_path ∅
       = Ok payload →
       quart_redirect web url None = Ok resp →
       fst (redirect_to_client_app_using_verification_token cfg lib os web now
              token key_path blacklist)
       = Ok resp)
  ∧ VStr (py_str url +:+ "?token=" +:+ token_str token) ≠ url.
Proof.
  intros Hu. split; [|split].
  - intros blacklist resp Hd Hr.
    destruct (process_email_Ok_decode _ _ _ web _ _ _ _ _ Hd)
      as (url' & Hu' & ->).
    rewrite Hu in Hu'. injection Hu' as <-. exact Hr.
  - intros blacklist resp Hin Hd Hr.
    destruct (decode_email_Ok _ _ _ _ _ _ _ _ Hd) as (Hf & _).
    rewrite (fallback_blacklisted _ _ _ _ _ _ _ _ Hf Hin). simpl.
    rewrite Hd. simpl. unfold getitem. rewrite Hu. simpl. rewrite Hr.
    reflexivity.
  - destruct url as [| b | n | s]; try discriminate.
    simpl. intros [= Heq]. revert Heq. apply append_nonempty_neq.
    discriminate.
Qed.

(** The fresh token of the deployment on both paths. *)
Lemma C10_two_redirect_targets_witness :
  fst (process_email_verification_token Scenario.cfg Scenario.lib Scenario.os
         Scenario.web Scenario.at_100s (Some "fresh.jwt") "/server/public.pem"
         ∅)
  = Ok (redirect (VStr "https://app.example/done?token=fresh.jwt") 302)
  ∧ fst (redirect_to_client_app_using_verification_token
           Scenario.cfg Scenario.lib Scenario.os Scenario.web Scenario.at_100s
           (Some "fresh.jwt") "/server/public.pem" {[ Some "fresh.jwt" ]})
    = Ok (redirect (VStr "https://app.example/done") 302).
Proof.
  destruct (C10_two_redirect_targets Scenario.cfg Scenario.lib Scenario.os
              Scenario.web Scenario.at_100s (Some "fresh.jwt")
              "/server/public.pem" Scenario.fresh_payload
              (VStr "https://app.example/done"))
    as (Hprimary & Hfallback & _).
  - vm_compute. reflexivity.
  - split.
    + apply (Hprimary ∅).
      * vm_compute. reflexivity.
      * vm_compute. reflexivity.
    + apply (Hfallback {[ Some "fresh.jwt" ]}).
      * apply elem_of_singleton. reflexivity.
      * vm_compute. reflexivity.
      * vm_compute. reflexivity.
Defined.

(** * Further properties of the code *)

(** ** The client verifier *)

(** [DecodeError] is a subclass of the library's [InvalidTokenError]: the
    handler of the client verifier catches what [InvalidTokenError] alone
    would catch. *)
Lemma client_handler_classes (e : exn) :
  existsb (isinstance e) [PyJWT_InvalidTokenError; PyJWT_DecodeError]
  = isinstance e PyJWT_InvalidTokenError.
Proof. destruct e as [[] msg]; reflexivity. Qed.

(** X1.  What [decode_client_jwt_token] has checked when it returns a
    payload: the token is not empty, the payload is the one that verifies
    under the key of the application the token names, its redirect field is
    present and truthy, and its expiration is a number not below the current
    time in whole seconds. *)
Theorem client_accepted_only_if_checked cfg lib os now token keys_directory
    payload :
  decode_client_jwt_token cfg lib os now token keys_directory = Ok payload →
  falsy_token token = false
  ∧ client_verified_payload cfg lib os now token keys_directory = Some payload
  ∧ (∃ url, payload !! redirect_url_field cfg = Some url ∧ truthy url = true)
  ∧ (∃ n, expiration_of cfg payload = Some n ∧ int_timestamp now ≤ n).
Proof.
  unfold decode_client_jwt_token, client_verified_payload, verified_payload,
    expiration_of.
  destruct (falsy_token token); [done|].
  intros H. apply try_except_Ok in H; [|done].
  destruct (jwt_decode_unverified lib _) as [u|]; [|done]. simpl in H.
  destruct (u !! app_id_field cfg) as [a|]; [|done].
  unfold path_exists, open_read in H.
  destruct (read_text os _) as [[key|]|]; [|done|done].
  rewrite bool_decide_eq_true_2 in H by eauto. simpl in H.
  destruct (jwt_decode lib now _ key _) as [p|]; [|done]. simpl in H.
  unfold getitem in H.
  destruct (p !! redirect_url_field cfg) as [url|] eqn:Hu; [|done].
  simpl in H. destruct (truthy url) eqn:Ht; [|done]. simpl in H.
  destruct (p !! expiration_field cfg) as [v|] eqn:Hv; [|done]. simpl in H.
  unfold int_gt in H. destruct (as_number v) as [n|] eqn:Hn; [|done].
  simpl in H. destruct (n <? int_timestamp now) eqn:Hlt; [done|].
  injection H as <-. rewrite Hu, Hv.
  apply Z.ltb_ge in Hlt. eauto 10.
Qed.

Lemma client_accepted_only_if_checked_witness :
  client_verified_payload Scenario.cfg Scenario.lib Scenario.os
    Scenario.at_100s5 (Some "client.jwt") "/keys"
  = Some Scenario.client_payload
  ∧ (∃ n, expiration_of Scenario.cfg Scenario.client_payload = Some n
          ∧ int_timestamp Scenario.at_100s5 ≤ n).
Proof.
  destruct (client_accepted_only_if_checked Scenario.cfg Scenario.lib
              Scenario.os Scenario.at_100s5 (Some "client.jwt") "/keys"
              Scenario.client_payload) as (_ & Hv & _ & Hn).
  - vm_compute. reflexivity.
  - split; assumption.
Defined.

(** X2.  A client token whose unverified payload has no application
    identifier is refused with [JWTAppIdMissingError], whatever the key
    store holds and whatever the verified decode would answer. *)
Theorem client_app_id_missing cfg lib now token keys_directory unverified :
  falsy_token token = false →
  jwt_decode_unverified lib (token_str token) = Ok unverified →
  unverified !! app_id_field cfg = None →
  ∀ verify os',
    decode_client_jwt_token cfg
      {| jwt_decode_unverified := jwt_decode_unverified lib;
         jwt_decode := verify;
         jwt_encode := jwt_encode lib |}
      os' now token keys_directory
    = Raise (mk_exn JWTAppIdMissingError "No app id in JWT payload.").
Proof.
  intros Hf Hu Ha verify os'. unfold decode_client_jwt_token. rewrite Hf.
  simpl. rewrite Hu. simpl. rewrite Ha. reflexivity.
Qed.

(** X3.  A client token that names an application without a key file is
    refused with [JWTPublicKeyNotFoundError], whatever the verified decode
    would answer: the signature check is not reached. *)
Theorem client_unknown_application cfg lib os now token keys_directory
    unverified app_id :
  falsy_token token = false →
  jwt_decode_unverified lib (token_str token) = Ok unverified →
  unverified !! app_id_field cfg = Some app_id →
  read_text os
    (path_join os keys_directory (py_str app_id +:+ "_public_key.pem")) = None →
  ∀ verify,
    decode_client_jwt_token cfg
      {| jwt_decode_unverified := jwt_decode_unverified lib;
         jwt_decode := verify;
         jwt_encode := jwt_encode lib |}
      os now token keys_directory
    = Raise (mk_exn JWTPublicKeyNotFoundError
               ("Public key not found for app_id: " +:+ py_str app_id +:+ " "
                  +:+ dict_str os unverified +:+ ".")).
Proof.
  intros Hf Hu Ha Hk verify. unfold decode_client_jwt_token. rewrite Hf.
  simpl. rewrite Hu. simpl. rewrite Ha. unfold path_exists. rewrite Hk.
  rewrite bool_decide_eq_false_2 by (intros [? ?]; discriminate).
  reflexivity.
Qed.

(** X4.  Errors of the JWT library on the client path.  When the unverified
    decode, or the verified decode under the application's key, raises an
    error of the library's [InvalidTokenError] family, the verifier raises
    [JWTError] with the same message; an exception of any other class
    leaves the verifier unchanged. *)
Theorem client_library_errors cfg lib os now token keys_directory e :
  falsy_token token = false →
  (jwt_decode_unverified lib (token_str token) = Raise e →
   decode_client_jwt_token cfg lib os now token keys_directory
   = if isinstance e PyJWT_InvalidTokenError
     then Raise (mk_exn JWTError (exn_msg e)) else Raise e)
  ∧ (∀ unverified app_id key,
       jwt_decode_unverified lib (token_str token) = Ok unverified →
       unverified !! app_id_field cfg = Some app_id →
       read_text os
         (path_join os keys_directory (py_str app_id +:+ "_public_key.pem"))
       = Some (Ok key) →
       jwt_decode lib now (token_str token) key (algorithm cfg) = Raise e →
       decode_client_jwt_token cfg lib os now token keys_directory
       = if isinstance e PyJWT_InvalidTokenError
         then Raise (mk_exn JWTError (exn_msg e)) else Raise e).
Proof.
  intros Hf. split.
  - intros Hu. unfold decode_client_jwt_token. rewrite Hf, Hu.
    unfold bind, try_except. rewrite client_handler_classes. reflexivity.
  - intros u a key Hu Ha Hk Hd. unfold decode_client_jwt_token.
    rewrite Hf, Hu. unfold bind at 1. rewrite Ha.
    unfold path_exists, open_read. rewrite Hk.
    rewrite bool_decide_eq_true_2 by eauto.
    unfold negb, bind at 1. rewrite Hd.
    unfold bind, try_except. rewrite client_handler_classes. reflexivity.
Qed.

Lemma client_app_id_missing_witness :
  decode_client_jwt_token Scenario.cfg Scenario.lib Scenario.os
    Scenario.at_100s (Some "fresh.jwt") "/keys"
  = Raise (mk_exn JWTAppIdMissingError "No app id in JWT payload.").
Proof.
  refine (client_app_id_missing Scenario.cfg Scenario.lib Scenario.at_100s
            (Some "fresh.jwt") "/keys" Scenario.fresh_payload _ _ _
            (jwt_decode Scenario.lib) Scenario.os).
  - reflexivity.
  - vm_compute. reflexivity.
  - vm_compute. reflexivity.
Defined.

Lemma client_library_errors_witness :
  decode_client_jwt_token Scenario.cfg Scenario.lib Scenario.os
    Scenario.at_100s (Some "garbage") "/keys"
  = Raise (mk_exn JWTError "Not enough segments").
Proof.
  refine (proj1 (client_library_errors Scenario.cfg Scenario.lib Scenario.os
                   Scenario.at_100s (Some "garbage") "/keys"
                   (mk_exn PyJWT_DecodeError "Not enough segments") _) _).
  - reflexivity.
  - vm_compute. reflexivity.
Defined.

(** X5.  The client flow at the boundary.  When the verifier raises, of
    whatever class the exception is, [login_redirect_with_client_jwt]
    raises [InvalidClientTokenError].  When the verifier returns a payload,
    it hands [redirect] the frontend URL followed by [?token=] and the
    token, the payload playing no part in the target: it returns the
    response [redirect] builds, and raises [InvalidClientTokenError] when
    [redirect] raises. *)
Theorem login_redirect_outcome cfg lib os web now token keys_directory
    frontend :
  login_redirect_with_client_jwt cfg lib os web now token keys_directory
    frontend
  = match decode_client_jwt_token cfg lib os now token keys_directory with
    | Ok _ =>
        match
          quart_redirect web
            (VStr (frontend +:+ "?token=" +:+ token_str token)) None
        with
        | Ok resp => Ok resp
        | Raise _ =>
            Raise (mk_exn InvalidClientTokenError
                     "Failed to decode client application token.")
        end
    | Raise _ =>
        Raise (mk_exn InvalidClientTokenError
                 "Failed to decode client application token.")
    end.
Proof.
  unfold login_redirect_with_client_jwt.
  destruct (decode_client_jwt_token cfg lib os now token keys_directory)
    as [p|e]; simpl.
  - destruct (quart_redirect web _ None) as [resp|e]; simpl; [reflexivity|].
    rewrite isinstance_Exception. reflexivity.
  - rewrite isinstance_Exception. reflexivity.
Qed.

(** ** The email verifier *)

(** X6.  Errors of the JWT library on the email path.  When the verified
    decode raises an error of the library's [InvalidTokenError] family, the
    verifier raises this module's [InvalidTokenError] with the same message;
    an exception of any other class leaves the verifier unchanged. *)
Theorem email_library_errors cfg lib os now token key_path blacklist key e :
  falsy_token token = false →
  token ∉ blacklist →
  read_text os key_path = Some (Ok key) →
  jwt_decode lib now (token_str token) key (algorithm cfg) = Raise e →
  decode_email_verification_token cfg lib os now token key_path blacklist
  = if isinstance e PyJWT_InvalidTokenError
    then Raise (mk_exn InvalidTokenError (exn_msg e)) else Raise e.
Proof.
  intros Hf Hbl Hk Hd. unfold decode_email_verification_token.
  rewrite Hf. rewrite bool_decide_eq_false_2 by done.
  unfold open_read. rewrite Hk. unfold bind at 1. rewrite Hd.
  unfold bind, try_except, existsb. rewrite orb_false_r. reflexivity.
Qed.

Lemma email_library_errors_witness :
  decode_email_verification_token Scenario.cfg Scenario.lib Scenario.os
    Scenario.at_100s (Some "forged.jwt") "/server/public.pem" ∅
  = Raise (mk_exn InvalidTokenError "Signature verification failed").
Proof.
  refine (email_library_errors Scenario.cfg Scenario.lib Scenario.os
            Scenario.at_100s (Some "forged.jwt") "/server/public.pem" ∅
            "SERVER-PUB"
            (mk_exn PyJWT_InvalidSignatureError "Signature verification failed")
            _ _ _ _).
  - reflexivity.
  - apply not_elem_of_empty.
  - reflexivity.
  - vm_compute. reflexivity.
Defined.

(** X7.  When the file of the server public key does not exist, a token
    that is neither empty nor blacklisted makes all three operations of the
    email flow raise [FileNotFoundError], which is not a [JWTError]; the
    blacklist is left as it was. *)
Theorem email_missing_key_file cfg lib os web now token key_path blacklist :
  falsy_token token = false →
  token ∉ blacklist →
  read_text os key_path = None →
  decode_email_verification_token cfg lib os now token key_path blacklist
  = Raise (mk_exn FileNotFoundError key_path)
  ∧ process_email_verification_token cfg lib os web now token key_path
      blacklist
    = (Raise (mk_exn FileNotFoundError key_path), blacklist)
  ∧ redirect_to_client_app_using_verification_token cfg lib os web now token
      key_path blacklist
    = (Raise (mk_exn FileNotFoundError key_path), blacklist)
  ∧ isinstance (mk_exn FileNotFoundError key_path) JWTError = false.
Proof.
  intros Hf Hbl Hk.
  assert (decode_email_verification_token cfg lib os now token key_path
            blacklist = Raise (mk_exn FileNotFoundError key_path)) as Hd.
  { unfold decode_email_verification_token. rewrite Hf.
    rewrite bool_decide_eq_false_2 by done.
    unfold open_read. rewrite Hk. reflexivity. }
  pose proof (process_email_Raise_decode cfg lib os web now _ _ _ _ Hd) as Hp.
  split; [exact Hd|]. split; [exact Hp|]. split; [|reflexivity].
  apply (fallback_first_Raise cfg lib os web now _ _ _ _ _ Hp). reflexivity.
Qed.

Lemma email_missing_key_file_witness :
  redirect_to_client_app_using_verification_token Scenario.cfg Scenario.lib
    Scenario.os Scenario.web Scenario.at_100s (Some "fresh.jwt")
    "/server/lost.pem" ∅
  = (Raise (mk_exn FileNotFoundError "/server/lost.pem"), ∅).
Proof.
  refine (proj1 (proj2 (proj2 (email_missing_key_file Scenario.cfg Scenario.lib
            Scenario.os Scenario.web Scenario.at_100s (Some "fresh.jwt")
            "/server/lost.pem" ∅ _ _ _)))).
  - reflexivity.
  - apply not_elem_of_empty.
  - reflexivity.
Defined.

(** X8.  The expiration field is read without a test.  A verified payload
    that lacks it makes the verifier raise [KeyError], and one that carries
    a value that is no number ([None], a string) makes the comparison raise
    [TypeError], on the email path and on the client path; neither is a
    [JWTError]. *)
Theorem expiration_field_unusable cfg lib os now token payload :
  falsy_token token = false →
  expiration_of cfg payload = None →
  let raised :=
    match payload !! expiration_field cfg with
    | None => mk_exn KeyError (expiration_field cfg)
    | Some _ => mk_exn TypeError "'>' not supported between instances"
    end in
  (∀ key_path blacklist,
     token ∉ blacklist →
     verified_payload cfg lib os now token key_path = Some payload →
     is_Some (payload !! redirect_url_field cfg) →
     decode_email_verification_token cfg lib os now token key_path blacklist
     = Raise raised)
  ∧ (∀ keys_directory url,
       client_verified_payload cfg lib os now token keys_directory
       = Some payload →
       payload !! redirect_url_field cfg = Some url →
       truthy url = true →
       decode_client_jwt_token cfg lib os now token keys_directory
       = Raise raised)
  ∧ isinstance raised JWTError = false.
Proof.
  intros Hf He raised. subst raised. unfold expiration_of in He.
  split; [|split].
  - intros key_path blacklist Hbl Hv Hr.
    unfold decode_email_verification_token, verified_payload in *.
    rewrite Hf. rewrite bool_decide_eq_false_2 by done.
    unfold open_read.
    destruct (read_text os key_path) as [[key|]|]; [|done|done].
    simpl. destruct (jwt_decode lib now _ key _) as [p|]; [|done].
    injection Hv as ->. simpl. rewrite bool_decide_eq_true_2 by done.
    simpl. unfold getitem.
    destruct (payload !! expiration_field cfg) as [v|]; [|reflexivity].
    simpl. unfold timestamp_gt. rewrite He. reflexivity.
  - intros keys_directory url Hv Hu Ht.
    rewrite (decode_client_verified _ _ _ _ _ _ _ Hf Hv).
    unfold getitem. rewrite Hu. simpl. rewrite Ht. simpl.
    destruct (payload !! expiration_field cfg) as [v|]; [|reflexivity].
    simpl. unfold int_gt. rewrite He. reflexivity.
  - destruct (payload !! expiration_field cfg); reflexivity.
Qed.

Lemma expiration_field_unusable_witness :
  decode_email_verification_token Scenario.cfg Scenario2.lib Scenario.os
    Scenario.at_100s (Some "undated.jwt") "/server/public.pem" ∅
  = Raise (mk_exn KeyError "expiration").
Proof.
  refine (proj1 (expiration_field_unusable Scenario.cfg Scenario2.lib
                   Scenario.os Scenario.at_100s (Some "undated.jwt")
                   Scenario2.undated_payload _ _)
            "/server/public.pem" ∅ _ _ _).
  - reflexivity.
  - vm_compute. reflexivity.
  - apply not_elem_of_empty.
  - vm_compute. reflexivity.
  - vm_compute. eauto.
Defined.

Lemma client_unknown_application_witness :
  decode_client_jwt_token Scenario.cfg Scenario2.lib Scenario.os
    Scenario.at_100s (Some "stranger.jwt") "/keys"
  = Raise (mk_exn JWTPublicKeyNotFoundError
             "Public key not found for app_id: app9 {...}.").
Proof.
  refine (client_unknown_application Scenario.cfg Scenario2.lib Scenario.os
            Scenario.at_100s (Some "stranger.jwt") "/keys"
            Scenario2.stranger_payload (VStr "app9") _ _ _ _
            (jwt_decode Scenario2.lib)).
  - reflexivity.
  - vm_compute. reflexivity.
  - vm_compute. reflexivity.
  - vm_compute. reflexivity.
Defined.

(** ** Replay protection and the blacklist *)


(** X9.  A token is consumed once.  After
    [process_email_verification_token] has returned a redirect for a token,
    submitting the same token again with the blacklist it left fails with
    [BlacklistedTokenError] and leaves the blacklist as it is, at any later
    time and whatever the key store, the JWT library and the web framework
    then answer. *)
Theorem consumed_token_is_refused cfg lib os web now token key_path blacklist
    resp blacklist' :
  process_email_verification_token cfg lib os web now token key_path blacklist
  = (Ok resp, blacklist') →
  ∀ lib' os' web' now' key_path',
    process_email_verification_token cfg lib' os' web' now' token key_path'
      blacklist'
    = (Raise (mk_exn BlacklistedTokenError "This token has been blacklisted."),
       blacklist').
Proof.
  intros Hp lib' os' web' now' key_path'.
  destruct (decode_email_verification_token cfg lib os now token key_path
              blacklist) as [payload|e] eqn:Hd.
  2:{ rewrite (process_email_Raise_decode _ _ _ web _ _ _ _ _ Hd) in Hp.
      discriminate. }
  destruct (decode_email_Ok _ _ _ _ _ _ _ _ Hd) as (Hf & _).
  destruct (process_email_Ok_decode _ _ _ web _ _ _ _ _ Hd)
    as (url & _ & Hp').
  rewrite Hp' in Hp. injection Hp as _ <-.
  apply process_email_Raise_decode.
  unfold decode_email_verification_token. rewrite Hf.
  rewrite bool_decide_eq_true_2 by set_solver. reflexivity.
Qed.

Lemma consumed_token_is_refused_witness :
  process_email_verification_token Scenario.cfg Scenario.lib Scenario.os
    Scenario.web Scenario.at_101s (Some "fresh.jwt") "/server/public.pem"
    ({[ Some "fresh.jwt" ]} ∪ ∅)
  = (Raise (mk_exn BlacklistedTokenError "This token has been blacklisted."),
     {[ Some "fresh.jwt" ]} ∪ ∅).
Proof.
  refine (consumed_token_is_refused Scenario.cfg Scenario.lib Scenario.os
            Scenario.web Scenario.at_100s (Some "fresh.jwt")
            "/server/public.pem" ∅
            (redirect (VStr "https://app.example/done?token=fresh.jwt") 302)
            ({[ Some "fresh.jwt" ]} ∪ ∅) _
            Scenario.lib Scenario.os Scenario.web Scenario.at_101s
            "/server/public.pem").
  vm_compute. reflexivity.
Defined.

(** X10.  A consumed token still opens the fallback.  After
    [process_email_verification_token] has returned a redirect for a token,
    take a later time at which the token still verifies and its expiration
    has not passed, and let [redirect] build a response for the redirect URL
    of its payload.  Then the fallback wrapper, given the blacklist that was
    left, returns that response, a redirect to the bare URL, and leaves the
    blacklist as it is. *)
Theorem consumed_token_falls_back cfg lib os web now token key_path blacklist
    resp blacklist' now' payload url resp' :
  process_email_verification_token cfg lib os web now token key_path blacklist
  = (Ok resp, blacklist') →
  verified_payload cfg lib os now' token key_path = Some payload →
  payload !! redirect_url_field cfg = Some url →
  unexpired cfg now' payload = true →
  quart_redirect web url None = Ok resp' →
  redirect_to_client_app_using_verification_token cfg lib os web now' token
    key_path blacklist'
  = (Ok resp', blacklist').
Proof.
  intros Hp Hv Hu Hnow' Hr.
  destruct (decode_email_verification_token cfg lib os now token key_path
              blacklist) as [payload0|e] eqn:Hd.
  2:{ rewrite (process_email_Raise_decode _ _ _ web _ _ _ _ _ Hd) in Hp.
      discriminate. }
  destruct (decode_email_Ok _ _ _ _ _ _ _ _ Hd) as (Hf & _).
  destruct (process_email_Ok_decode _ _ _ web _ _ _ _ _ Hd)
    as (url0 & _ & Hp').
  rewrite Hp' in Hp. injection Hp as _ <-.
  rewrite (fallback_blacklisted _ _ _ _ _ _ _ _ Hf) by set_solver.
  unfold unexpired in Hnow'.
  destruct (expiration_of cfg payload) as [n|] eqn:He; [|done].
  apply bool_decide_eq_true in Hnow'.
  rewrite (decode_email_checked cfg lib os now' token key_path ∅ payload n
             Hf (not_elem_of_empty _) Hv ltac:(by rewrite Hu) He).
  destruct (Z.ltb_spec (n * us_per_second) now'); [lia|].
  simpl. unfold getitem. rewrite Hu. simpl. rewrite Hr. reflexivity.
Qed.

Lemma consumed_token_falls_back_witness :
  redirect_to_client_app_using_verification_token Scenario.cfg Scenario.lib
    Scenario.os Scenario.web Scenario.at_101s (Some "fresh.jwt")
    "/server/public.pem" ({[ Some "fresh.jwt" ]} ∪ ∅)
  = (Ok (redirect (VStr "https://app.example/done") 302),
     {[ Some "fresh.jwt" ]} ∪ ∅).
Proof.
  refine (consumed_token_falls_back Scenario.cfg Scenario.lib Scenario.os
            Scenario.web Scenario.at_100s (Some "fresh.jwt")
            "/server/public.pem" ∅
            (redirect (VStr "https://app.example/done?token=fresh.jwt") 302)
            ({[ Some "fresh.jwt" ]} ∪ ∅)
            Scenario.at_101s Scenario.fresh_payload
            (VStr "https://app.example/done")
            (redirect (VStr "https://app.example/done") 302) _ _ _ _ _).
  - vm_compute. reflexivity.
  - vm_compute. reflexivity.
  - vm_compute. reflexivity.
  - vm_compute. reflexivity.
  - vm_compute. reflexivity.
Defined.

(** X11.  The blacklist only grows, and only by the token submitted: after
    [process_email_verification_token] or the fallback wrapper, it is the
    old blacklist or the old blacklist with the token added; and when the
    token was already in it, it is the old blacklist. *)
Theorem blacklist_only_grows cfg lib os web now token key_path blacklist :
  let after_process :=
    snd (process_email_verification_token cfg lib os web now token key_path
           blacklist) in
  let after_fallback :=
    snd (redirect_to_client_app_using_verification_token cfg lib os web now
           token key_path blacklist) in
  (after_process = blacklist ∨ after_process = {[ token ]} ∪ blacklist)
  ∧ (after_fallback = blacklist ∨ after_fallback = {[ token ]} ∪ blacklist)
  ∧ blacklist ⊆ after_process
  ∧ blacklist ⊆ after_fallback
  ∧ (token ∈ blacklist →
     after_process = blacklist ∧ after_fallback = blacklist).
Proof.
  intros after_process after_fallback.
  assert (after_fallback = after_process) as Heq.
  { subst after_process after_fallback.
    unfold redirect_to_client_app_using_verification_token.
    destruct (process_email_verification_token cfg lib os web now token
                key_path blacklist) as [[resp|e] bl']; simpl; [reflexivity|].
    destruct (isinstance e BlacklistedTokenError); [reflexivity|].
    destruct (isinstance e InvalidTokenError); reflexivity. }
  rewrite Heq. subst after_process. clear Heq after_fallback.
  destruct (decode_email_verification_token cfg lib os now token key_path
              blacklist) as [payload|e] eqn:Hd.
  - destruct (process_email_Ok_decode _ _ _ web _ _ _ _ _ Hd)
      as (url & _ & ->).
    destruct (decode_email_Ok _ _ _ _ _ _ _ _ Hd) as (_ & Hbl & _).
    simpl. repeat split; try (right; reflexivity); try set_solver.
  - rewrite (process_email_Raise_decode _ _ _ web _ _ _ _ _ Hd).
    simpl. repeat split; try (left; reflexivity); try set_solver.
Qed.

Lemma blacklist_only_grows_witness :
  snd (process_email_verification_token Scenario.cfg Scenario.lib Scenario.os
         Scenario.web Scenario.at_100s (Some "fresh.jwt") "/server/public.pem"
         {[ Some "fresh.jwt" ]})
  = {[ Some "fresh.jwt" ]}
  ∧ snd (redirect_to_client_app_using_verification_token Scenario.cfg
           Scenario.lib Scenario.os Scenario.web Scenario.at_100s
           (Some "fresh.jwt") "/server/public.pem" {[ Some "fresh.jwt" ]})
    = {[ Some "fresh.jwt" ]}.
Proof.
  apply (blacklist_only_grows Scenario.cfg Scenario.lib Scenario.os
           Scenario.web Scenario.at_100s (Some "fresh.jwt")
           "/server/public.pem" {[ Some "fresh.jwt" ]}).
  apply elem_of_singleton. reflexivity.
Defined.



(** ** Issuing tokens *)

(** X13.  The outcomes of [encode_email_verification_token].  Without the
    private key file it raises [JWTPrivateKeyNotFoundError], whatever the
    signing function is.  When the file exists and opening or reading it
    raises, that exception leaves the function as it is: the file is read
    outside the [try].  Every other exception it raises is a [JWTError],
    the failures of the library being wrapped.  And a token it returns is
    the one the library made of the payload with the text of the key file
    and the configured algorithm. *)
Theorem encode_outcomes cfg lib os payload key_path :
  (read_text os key_path = None →
   ∀ sign,
     encode_email_verification_token cfg
       {| jwt_decode_unverified := jwt_decode_unverified lib;
          jwt_decode := jwt_decode lib;
          jwt_encode := sign |}
       os payload key_path
     = Raise (mk_exn JWTPrivateKeyNotFoundError "Private key not found"))
  ∧ (∀ e,
       read_text os key_path = Some (Raise e) →
       encode_email_verification_token cfg lib os payload key_path = Raise e)
  ∧ (∀ e,
       encode_email_verification_token cfg lib os payload key_path = Raise e →
       isinstance e JWTError = true
       ∨ read_text os key_path = Some (Raise e))
  ∧ (∀ token,
       encode_email_verification_token cfg lib os payload key_path = Ok token →
       ∃ key,
         read_text os key_path = Some (Ok key)
         ∧ jwt_encode lib payload key (algorithm cfg) = Ok token).
Proof.
  unfold encode_email_verification_token, path_exists, open_read.
  split; [|split; [|split]].
  - intros Hk sign. rewrite Hk.
    rewrite bool_decide_eq_false_2 by (intros [? ?]; discriminate).
    reflexivity.
  - intros e Hk. rewrite Hk. rewrite bool_decide_eq_true_2 by eauto.
    reflexivity.
  - intros e. destruct (read_text os key_path) as [[key|e0]|].
    + rewrite bool_decide_eq_true_2 by eauto. simpl.
      destruct (jwt_encode lib payload key (algorithm cfg)) as [t|e1];
        simpl; [discriminate|].
      rewrite isinstance_Exception. simpl. intros [= <-]. left. reflexivity.
    + rewrite bool_decide_eq_true_2 by eauto. simpl.
      intros [= <-]. right. reflexivity.
    + rewrite bool_decide_eq_false_2 by (intros [? ?]; discriminate).
      simpl. intros [= <-]. left. reflexivity.
  - intros token. destruct (read_text os key_path) as [[key|e0]|].
    + rewrite bool_decide_eq_true_2 by eauto. simpl.
      destruct (jwt_encode lib payload key (algorithm cfg)) as [t|e1] eqn:Hs;
        simpl.
      * intros [= ->]. eauto.
      * rewrite isinstance_Exception. simpl. discriminate.
    + rewrite bool_decide_eq_true_2 by eauto. simpl. discriminate.
    + rewrite bool_decide_eq_false_2 by (intros [? ?]; discriminate).
      simpl. discriminate.
Qed.

Lemma encode_outcomes_witness :
  encode_email_verification_token Scenario.cfg Scenario.lib Scenario.os
    Scenario.fresh_payload "/server/lost.pem"
  = Raise (mk_exn JWTPrivateKeyNotFoundError "Private key not found")
  ∧ encode_email_verification_token Scenario.cfg Scenario.lib Scenario.os
      Scenario.fresh_payload "/server/locked.pem"
    = Raise (mk_exn PermissionError "[Errno 13] Permission denied")
  ∧ (isinstance
       (mk_exn JWTError
          "Failed to encode JWT token. Error: Expecting a PEM-formatted key.")
       JWTError = true
     ∨ read_text Scenario.os "/server/private.pem"
       = Some (Raise
                 (mk_exn JWTError
                    "Failed to encode JWT token. Error: Expecting a PEM-formatted key.")))
  ∧ (∃ key,
       read_text Scenario.os "/server/private.pem" = Some (Ok key)
       ∧ jwt_encode Scenario.lib Scenario.fresh_payload key
           (algorithm Scenario.cfg) = Ok "fresh.jwt").
Proof.
  split; [|split; [|split]].
  - exact (proj1 (encode_outcomes Scenario.cfg Scenario.lib Scenario.os
                    Scenario.fresh_payload "/server/lost.pem")
             eq_refl (jwt_encode Scenario.lib)).
  - exact (proj1 (proj2 (encode_outcomes Scenario.cfg Scenario.lib Scenario.os
                           Scenario.fresh_payload "/server/locked.pem"))
             _ eq_refl).
  - refine (proj1 (proj2 (proj2 (encode_outcomes Scenario.cfg Scenario.lib
                                   Scenario.os Scenario.stale_payload
                                   "/server/private.pem"))) _ _).
    vm_compute. reflexivity.
  - refine (proj2 (proj2 (proj2 (encode_outcomes Scenario.cfg Scenario.lib
                                   Scenario.os Scenario.fresh_payload
                                   "/server/private.pem"))) _ _).
    vm_compute. reflexivity.
Defined.

(** The expiration written into an issued payload, when the computation
    succeeds: the timestamp the host gives to the time of issue plus the
    lifetime, cut to a whole second. *)
Lemma expiration_timestamp_after_Ok host utcnow lifetime expiration :
  expiration_timestamp_after host utcnow lifetime = Ok expiration →
  ∃ timestamp,
    naive_timestamp host (utcnow + lifetime * us_per_second) = Ok timestamp
    ∧ expiration = int_timestamp timestamp.
Proof.
  unfold expiration_timestamp_after, timedelta_seconds, datetime_add.
  destruct (Z.abs (lifetime / 86400) <=? 999999999); [|done]. simpl.
  destruct ((0 <=? utcnow + lifetime * us_per_second)
            && (utcnow + lifetime * us_per_second <=? datetime_max)); [|done].
  simpl.
  destruct (naive_timestamp host (utcnow + lifetime * us_per_second))
    as [timestamp|]; [|done].
  simpl. intros [= <-]. eauto.
Qed.

(** A timestamp that is not negative, cut to a whole second. *)
Lemma int_timestamp_bounds (timestamp : clock) :
  0 ≤ timestamp →
  int_timestamp timestamp * us_per_second ≤ timestamp
  ∧ timestamp < (int_timestamp timestamp + 1) * us_per_second.
Proof.
  intros Hnn. unfold int_timestamp, us_per_second in *.
  rewrite Z.quot_div_nonneg by lia.
  pose proof (Z.div_mod timestamp 1000000 ltac:(lia)).
  pose proof (Z.mod_pos_bound timestamp 1000000 ltac:(lia)).
  lia.
Qed.

Lemma issued_payload_fields cfg email url expiration :
  redirect_url_field cfg ≠ expiration_field cfg →
  issued_payload cfg email url expiration !! redirect_url_field cfg
  = Some (VStr url)
  ∧ expiration_of cfg (issued_payload cfg email url expiration)
    = Some expiration.
Proof.
  intros Hne. unfold expiration_of, issued_payload. split.
  - rewrite lookup_insert_ne by done. apply lookup_insert_eq.
  - rewrite lookup_insert_eq. reflexivity.
Qed.

(** X14.  Issue, then redeem.  Let the redirect field and the expiration
    field have different names, the computation of the expiration succeed,
    the private key file be readable, the JWT library sign the issued
    payload into a token, and [url_for] build a link for it.  Then
    [generate_email_verification_token] returns that link.  And at any time
    at which the library decodes the token back into the issued payload
    under the public key and the expiration has not passed,
    [process_email_verification_token], given the token (not the empty
    string, not blacklisted), hands [redirect] the requested URL followed by
    [?token=] and the token, with status 302, and blacklists the token. *)
Theorem issued_token_is_redeemable cfg lib os web host utcnow email url
    lifetime private_path private_key expiration token link :
  redirect_url_field cfg ≠ expiration_field cfg →
  expiration_timestamp_after host utcnow lifetime = Ok expiration →
  read_text os private_path = Some (Ok private_key) →
  jwt_encode lib (issued_payload cfg email url expiration) private_key
    (algorithm cfg) = Ok token →
  url_for web "authenticate" token = Ok link →
  generate_email_verification_token cfg lib os web host utcnow email url
    lifetime private_path
  = Ok link
  ∧ (∀ now public_path public_key blacklist,
       token ≠ "" →
       Some token ∉ blacklist →
       read_text os public_path = Some (Ok public_key) →
       jwt_decode lib now token public_key (algorithm cfg)
       = Ok (issued_payload cfg email url expiration) →
       now ≤ expiration * us_per_second →
       process_email_verification_token cfg lib os web now (Some token)
         public_path blacklist
       = (quart_redirect web (VStr (url +:+ "?token=" +:+ token)) (Some 302),
          {[ Some token ]} ∪ blacklist)).
Proof.
  intros Hne Hexp Hpriv Henc Hlink.
  destruct (issued_payload_fields cfg email url expiration Hne) as [Hu He].
  split.
  - unfold generate_email_verification_token. rewrite Hexp. simpl.
    unfold encode_email_verification_token, path_exists, open_read.
    rewrite Hpriv. rewrite bool_decide_eq_true_2 by eauto. simpl.
    rewrite Henc. simpl. rewrite Hlink. reflexivity.
  - intros now public_path public_key blacklist Htok Hbl Hpub Hdec Hnow.
    assert (verified_payload cfg lib os now (Some token) public_path
            = Some (issued_payload cfg email url expiration)) as Hv.
    { unfold verified_payload. rewrite Hpub. simpl. rewrite Hdec.
      reflexivity. }
    assert (falsy_token (Some token) = false) as Hf.
    { simpl. apply String.eqb_neq. exact Htok. }
    assert (decode_email_verification_token cfg lib os now (Some token)
              public_path blacklist
            = Ok (issued_payload cfg email url expiration)) as Hd.
    { rewrite (decode_email_checked cfg lib os now (Some token) public_path
                 blacklist _ _ Hf Hbl Hv ltac:(by rewrite Hu) He).
      destruct (Z.ltb_spec (expiration * us_per_second) now);
        [lia|reflexivity]. }
    destruct (process_email_Ok_decode _ _ _ web _ _ _ _ _ Hd)
      as (u & Hu' & ->).
    rewrite Hu in Hu'. injection Hu' as <-. reflexivity.
Qed.

Lemma issued_token_is_redeemable_witness :
  generate_email_verification_token Scenario.cfg Scenario.lib Scenario.os
    Scenario.web Scenario2.utc_host Scenario2.utcnow_100s "user@example.com"
    "https://app.example/done" 1900 "/server/private.pem"
  = Ok "https://membrane.example/authenticate?token=fresh.jwt"
  ∧ process_email_verification_token Scenario.cfg Scenario.lib Scenario.os
      Scenario.web Scenario.at_100s (Some "fresh.jwt") "/server/public.pem" ∅
    = (quart_redirect Scenario.web
         (VStr ("https://app.example/done" +:+ "?token=" +:+ "fresh.jwt"))
         (Some 302),
       {[ Some "fresh.jwt" ]} ∪ ∅).
Proof.
  destruct (issued_token_is_redeemable Scenario.cfg Scenario.lib Scenario.os
              Scenario.web Scenario2.utc_host Scenario2.utcnow_100s
              "user@example.com" "https://app.example/done" 1900
              "/server/private.pem" "SERVER-PRIV" 2000 "fresh.jwt"
              "https://membrane.example/authenticate?token=fresh.jwt")
    as [Hgen Hredeem].
  - discriminate.
  - vm_compute. reflexivity.
  - reflexivity.
  - vm_compute. reflexivity.
  - vm_compute. reflexivity.
  - split; [exact Hgen|].
    apply (Hredeem Scenario.at_100s "/server/public.pem" "SERVER-PUB" ∅).
    + discriminate.
    + apply not_elem_of_empty.
    + reflexivity.
    + vm_compute. reflexivity.
    + vm_compute. discriminate.
Defined.

(** X15.  The lifetime of an issued token on the email path, on a host
    whose [timestamp()] is additive from the time of issue to the expiry:
    it reads the time of issue as [issued_at] and that time plus [lifetime]
    seconds as [issued_at] plus [lifetime] seconds, as a host does whose
    zone keeps its offset in between.  A token that carries the payload
    issued then, and passes the checks before the expiry check, is accepted
    at every time up to [issued_at] plus [lifetime - 1] seconds, and
    refused with [JWTExpired] at every time after [issued_at] plus
    [lifetime] seconds: the cut of the expiration to a whole second costs
    less than a second and never adds any. *)
Theorem issued_token_lifetime cfg lib os host utcnow issued_at email url
    lifetime expiration token key_path blacklist now :
  redirect_url_field cfg ≠ expiration_field cfg →
  naive_timestamp host utcnow = Ok issued_at →
  naive_timestamp host (utcnow + lifetime * us_per_second)
  = Ok (issued_at + lifetime * us_per_second) →
  0 ≤ issued_at + lifetime * us_per_second →
  expiration_timestamp_after host utcnow lifetime = Ok expiration →
  falsy_token token = false →
  token ∉ blacklist →
  verified_payload cfg lib os now token key_path
  = Some (issued_payload cfg email url expiration) →
  (now ≤ issued_at + (lifetime - 1) * us_per_second →
   decode_email_verification_token cfg lib os now token key_path blacklist
   = Ok (issued_payload cfg email url expiration))
  ∧ (issued_at + lifetime * us_per_second < now →
     decode_email_verification_token cfg lib os now token key_path blacklist
     = Raise (mk_exn JWTExpired "JWT token has expired.")).
Proof.
  intros Hne _ Hadd Hnn Hexp Hf Hbl Hv.
  destruct (expiration_timestamp_after_Ok _ _ _ _ Hexp) as (ts & Hts & ->).
  rewrite Hadd in Hts. injection Hts as <-.
  destruct (issued_payload_fields cfg email url
              (int_timestamp (issued_at + lifetime * us_per_second)) Hne)
    as [Hu He].
  rewrite (decode_email_checked cfg lib os now token key_path blacklist _ _
             Hf Hbl Hv ltac:(by rewrite Hu) He).
  destruct (int_timestamp_bounds _ Hnn) as [Hlo Hup].
  destruct (Z.ltb_spec
              (int_timestamp (issued_at + lifetime * us_per_second)
               * us_per_second) now) as [Hlt|Hge].
  - split; [|reflexivity]. intros Hnow. unfold us_per_second in *. lia.
  - split; [reflexivity|]. intros Hnow. unfold us_per_second in *. lia.
Qed.

Lemma issued_token_lifetime_witness :
  decode_email_verification_token Scenario.cfg Scenario.lib Scenario.os
    Scenario.at_101s (Some "fresh.jwt") "/server/public.pem" ∅
  = Ok (issued_payload Scenario.cfg "user@example.com"
          "https://app.example/done" 2000).
Proof.
  refine (proj1 (issued_token_lifetime Scenario.cfg Scenario.lib Scenario.os
                   Scenario2.utc_host Scenario2.utcnow_100s5
                   Scenario.at_100s5 "user@example.com"
                   "https://app.example/done" 1900 2000 (Some "fresh.jwt")
                   "/server/public.pem" ∅ Scenario.at_101s
                   _ _ _ _ _ _ _ _) _).
  - discriminate.
  - vm_compute. reflexivity.
  - vm_compute. reflexivity.
  - vm_compute. discriminate.
  - vm_compute. reflexivity.
  - reflexivity.
  - apply not_elem_of_empty.
  - vm_compute. reflexivity.
  - vm_compute. discriminate.
Defined.

(** ** Sending the verification email *)

(** The polling loop, entered with the time that [waits] waits have taken:
    fuel beyond the waits that are left changes nothing, and the loop does
    not run out of it. *)
Lemma poll_fuel_irrelevant poller :
  ∀ fuel fuel' waits time_elapsed,
    time_elapsed ≤ 180 →
    180 - time_elapsed < 10 * Z.of_nat fuel →
    180 - time_elapsed < 10 * Z.of_nat fuel' →
    Emails.poll_until_done fuel poller waits time_elapsed
    = Emails.poll_until_done fuel' poller waits time_elapsed
    ∧ Emails.poll_until_done fuel poller waits time_elapsed ≠ None.
Proof.
  induction fuel as [|fuel IH]; intros fuel' waits t Ht Hfuel Hfuel'; [lia|].
  destruct fuel' as [|fuel']; [lia|]. simpl.
  destruct (Emails.poller_done poller waits) as [[|]|]; try done.
  destruct (Emails.poller_status poller waits); try done.
  destruct (Emails.poller_wait poller waits); try done.
  unfold Emails.POLLER_WAIT_TIME.
  destruct (Z.ltb_spec (18 * 10) (t + 10)); [done|].
  apply IH; lia.
Qed.

(** What the loop has seen when it ends with the poller done. *)
Lemma poll_done_inv poller :
  ∀ fuel waits time_elapsed k,
    time_elapsed = 10 * Z.of_nat waits →
    time_elapsed ≤ 180 →
    Emails.poll_until_done fuel poller waits time_elapsed
    = Some (Emails.Returns k) →
    (waits ≤ k ≤ 18)%nat ∧ Emails.poller_done poller k = Emails.Returns true.
Proof.
  induction fuel as [|fuel IH]; intros waits t k Ht Hle; simpl; [done|].
  destruct (Emails.poller_done poller waits) as [[|]|] eqn:Hd; try done.
  { intros [= <-]. split; [lia|exact Hd]. }
  destruct (Emails.poller_status poller waits); try done.
  destruct (Emails.poller_wait poller waits); try done.
  unfold Emails.POLLER_WAIT_TIME.
  destruct (Z.ltb_spec (18 * 10) (t + 10)); [done|].
  intros Hp. apply IH in Hp; [|lia|lia]. destruct Hp as [Hk Hdone].
  split; [lia|exact Hdone].
Qed.

(** The loop against a poller that is not done during its first nineteen
    checks. *)
Lemma poll_times_out poller :
  (∀ k, (k ≤ 18)%nat →
        Emails.poller_done poller k = Emails.Returns false
        ∧ (∃ s, Emails.poller_status poller k = Emails.Returns s)
        ∧ Emails.poller_wait poller k = Emails.Returns tt) →
  ∀ fuel waits,
    (waits ≤ 18)%nat →
    (19 ≤ fuel + waits)%nat →
    Emails.poll_until_done fuel poller waits (10 * Z.of_nat waits)
    = Some (Emails.Raises (Emails.RuntimeError "Polling timed out.")).
Proof.
  intros Hbusy. induction fuel as [|fuel IH]; intros waits Hw Hfuel; [lia|].
  simpl. destruct (Hbusy waits Hw) as (-> & [s ->] & ->).
  unfold Emails.POLLER_WAIT_TIME.
  destruct (Z.ltb_spec (18 * 10) (10 * Z.of_nat waits + 10)); [reflexivity|].
  replace (10 * Z.of_nat waits + 10) with (10 * Z.of_nat (S waits)) by lia.
  apply IH; lia.
Qed.

(** The loop against a poller that is done after [k] waits. *)
Lemma poll_completes poller k :
  (k ≤ 18)%nat →
  (∀ j, (j < k)%nat →
        Emails.poller_done poller j = Emails.Returns false
        ∧ (∃ s, Emails.poller_status poller j = Emails.Returns s)
        ∧ Emails.poller_wait poller j = Emails.Returns tt) →
  Emails.poller_done poller k = Emails.Returns true →
  ∀ fuel waits,
    (waits ≤ k)%nat →
    (19 ≤ fuel + waits)%nat →
    Emails.poll_until_done fuel poller waits (10 * Z.of_nat waits)
    = Some (Emails.Returns k).
Proof.
  intros Hk Hbusy Hdone.
  induction fuel as [|fuel IH]; intros waits Hw Hfuel; [lia|].
  simpl. destruct (decide (waits = k)) as [->|Hne].
  { rewrite Hdone. reflexivity. }
  destruct (Hbusy waits ltac:(lia)) as (-> & [s ->] & ->).
  unfold Emails.POLLER_WAIT_TIME.
  destruct (Z.ltb_spec (18 * 10) (10 * Z.of_nat waits + 10)); [lia|].
  replace (10 * Z.of_nat waits + 10) with (10 * Z.of_nat (S waits)) by lia.
  apply IH; lia.
Qed.

(** X16.  [send_email] ends: nineteen iterations of its polling loop are
    always enough, and more fuel gives the same outcome. *)
Theorem send_email_terminates fuel from_connection_string connection_string
    sender recipient subject body html_content :
  (19 ≤ fuel)%nat →
  Emails.send_email fuel from_connection_string connection_string sender
    recipient subject body html_content
  = Emails.send_email 19 from_connection_string connection_string sender
      recipient subject body html_content
  ∧ Emails.send_email 19 from_connection_string connection_string sender
      recipient subject body html_content ≠ None.
Proof.
  intros Hfuel. unfold Emails.send_email.
  destruct (from_connection_string connection_string) as [client|]; [|done].
  destruct (Emails.begin_send client _) as [poller|]; [|done].
  destruct (poll_fuel_irrelevant poller fuel 19 0 0) as [-> _]; [lia..|].
  destruct (poll_fuel_irrelevant poller 19 19 0 0) as [_ Hsome]; [lia..|].
  split; [reflexivity|].
  destruct (Emails.poll_until_done 19 poller 0 0) as [[k|e]|]; done.
Qed.

Lemma send_email_terminates_witness :
  Emails.send_email 40 (Scenario2.service 2 Scenario2.sent_result) "endpoint=x"
    "noreply@membrane.example" "user@example.com" "Verify" "Click" None
  = Emails.send_email 19 (Scenario2.service 2 Scenario2.sent_result)
      "endpoint=x" "noreply@membrane.example" "user@example.com" "Verify"
      "Click" None.
Proof.
  refine (proj1 (send_email_terminates 40
                   (Scenario2.service 2 Scenario2.sent_result) "endpoint=x"
                   "noreply@membrane.example" "user@example.com" "Verify"
                   "Click" None _)).
  lia.
Defined.

(** X17.  The time-out.  When the poller is not done at any of its first
    nineteen checks (190 seconds of waiting), [send_email] raises
    [RuntimeError("An error occurred: Polling timed out.")]: the time-out
    raised inside the [try] is caught and wrapped like any other error. *)
Theorem send_email_times_out fuel from_connection_string connection_string
    sender recipient subject body html_content client poller :
  (19 ≤ fuel)%nat →
  from_connection_string connection_string = Emails.Returns client →
  Emails.begin_send client
    (Emails.build_message sender recipient subject body html_content)
  = Emails.Returns poller →
  (∀ k, (k ≤ 18)%nat →
        Emails.poller_done poller k = Emails.Returns false
        ∧ (∃ s, Emails.poller_status poller k = Emails.Returns s)
        ∧ Emails.poller_wait poller k = Emails.Returns tt) →
  Emails.send_email fuel from_connection_string connection_string sender
    recipient subject body html_content
  = Some (Emails.Raises
            (Emails.RuntimeError "An error occurred: Polling timed out.")).
Proof.
  intros Hfuel Hclient Hsend Hbusy. unfold Emails.send_email.
  rewrite Hclient, Hsend.
  pose proof (poll_times_out poller Hbusy fuel 0%nat ltac:(lia) ltac:(lia))
    as Hpoll.
  change (10 * Z.of_nat 0) with 0 in Hpoll. rewrite Hpoll.
  reflexivity.
Qed.

Lemma send_email_times_out_witness :
  Emails.send_email 19 (Scenario2.service 19 Scenario2.sent_result)
    "endpoint=x" "noreply@membrane.example" "user@example.com" "Verify"
    "Click" None
  = Some (Emails.Raises
            (Emails.RuntimeError "An error occurred: Polling timed out.")).
Proof.
  refine (send_email_times_out 19 (Scenario2.service 19 Scenario2.sent_result)
            "endpoint=x" "noreply@membrane.example" "user@example.com"
            "Verify" "Click" None _
            (Scenario2.poller_after 19 Scenario2.sent_result) _ _ _ _).
  - lia.
  - reflexivity.
  - reflexivity.
  - intros k Hk. simpl. rewrite bool_decide_eq_false_2 by lia. eauto.
Defined.

(** X18.  Within the budget.  When the poller is done after [k] waits,
    [k] at most 18, [send_email] reads its result: a result whose status is
    ["Succeeded"] gives the dict with that status and the operation id, and
    a result with another status and an error entry gives
    [RuntimeError] with ["An error occurred: "] before the error. *)
Theorem send_email_reads_result fuel from_connection_string connection_string
    sender recipient subject body html_content client poller k result :
  (19 ≤ fuel)%nat →
  from_connection_string connection_string = Emails.Returns client →
  Emails.begin_send client
    (Emails.build_message sender recipient subject body html_content)
  = Emails.Returns poller →
  (k ≤ 18)%nat →
  (∀ j, (j < k)%nat →
        Emails.poller_done poller j = Emails.Returns false
        ∧ (∃ s, Emails.poller_status poller j = Emails.Returns s)
        ∧ Emails.poller_wait poller j = Emails.Returns tt) →
  Emails.poller_done poller k = Emails.Returns true →
  Emails.poller_result poller k = Emails.Returns result →
  (∀ id,
     result !! "status" = Some (VStr "Succeeded") →
     result !! "id" = Some id →
     Emails.send_email fuel from_connection_string connection_string sender
       recipient subject body html_content
     = Some (Emails.Returns
               {[ "status" := VStr "Succeeded"; "operation_id" := id ]}))
  ∧ (∀ status err,
       result !! "status" = Some status →
       status ≠ VStr "Succeeded" →
       result !! "error" = Some err →
       Emails.send_email fuel from_connection_string connection_string sender
         recipient subject body html_content
       = Some (Emails.Raises
                 (Emails.RuntimeError ("An error occurred: " +:+ py_str err)))).
Proof.
  intros Hfuel Hclient Hsend Hk Hbusy Hdone Hresult.
  pose proof (poll_completes poller k Hk Hbusy Hdone fuel 0%nat
                ltac:(lia) ltac:(lia)) as Hpoll.
  change (10 * Z.of_nat 0) with 0 in Hpoll.
  unfold Emails.send_email. rewrite Hclient, Hsend, Hpoll.
  unfold Emails.read_result. rewrite Hresult. split.
  - intros id Hs Hid. rewrite Hs, Hid.
    rewrite bool_decide_eq_true_2 by reflexivity. reflexivity.
  - intros status err Hs Hne Herr. rewrite Hs, Herr.
    rewrite bool_decide_eq_false_2 by exact Hne. reflexivity.
Qed.

Lemma send_email_reads_result_witness :
  Emails.send_email 19 (Scenario2.service 18 Scenario2.sent_result)
    "endpoint=x" "noreply@membrane.example" "user@example.com" "Verify"
    "Click" None
  = Some (Emails.Returns
            {[ "status" := VStr "Succeeded"; "operation_id" := VStr "op-1" ]})
  ∧ Emails.send_email 19 (Scenario2.service 3 Scenario2.failed_result)
      "endpoint=x" "noreply@membrane.example" "user@example.com" "Verify"
      "Click" None
    = Some (Emails.Raises
              (Emails.RuntimeError "An error occurred: mailbox full")).
Proof.
  split.
  - refine (proj1 (send_email_reads_result 19
              (Scenario2.service 18 Scenario2.sent_result) "endpoint=x"
              "noreply@membrane.example" "user@example.com" "Verify" "Click"
              None _ (Scenario2.poller_after 18 Scenario2.sent_result) 18
              Scenario2.sent_result _ _ _ _ _ _ _) (VStr "op-1") _ _).
    + lia.
    + reflexivity.
    + reflexivity.
    + lia.
    + intros j Hj. simpl. rewrite bool_decide_eq_false_2 by lia. eauto.
    + reflexivity.
    + reflexivity.
    + vm_compute. reflexivity.
    + vm_compute. reflexivity.
  - refine (proj2 (send_email_reads_result 19
              (Scenario2.service 3 Scenario2.failed_result) "endpoint=x"
              "noreply@membrane.example" "user@example.com" "Verify" "Click"
              None _ (Scenario2.poller_after 3 Scenario2.failed_result) 3
              Scenario2.failed_result _ _ _ _ _ _ _)
              (VStr "Failed") (VStr "mailbox full") _ _ _).
    + lia.
    + reflexivity.
    + reflexivity.
    + lia.
    + intros j Hj. simpl. rewrite bool_decide_eq_false_2 by lia. eauto.
    + reflexivity.
    + reflexivity.
    + vm_compute. reflexivity.
    + discriminate.
    + vm_compute. reflexivity.
Defined.

(** X19.  What [send_email] raises.  An exception of
    [from_connection_string], which is called before the [try], leaves the
    function as it is.  Once the client is built, every exception that
    leaves the function is a [RuntimeError] whose message starts with
    ["An error occurred: "]. *)
Theorem send_email_failures fuel from_connection_string connection_string
    sender recipient subject body html_content :
  (∀ e,
     from_connection_string connection_string = Emails.Raises e →
     Emails.send_email fuel from_connection_string connection_string sender
       recipient subject body html_content
     = Some (Emails.Raises e))
  ∧ (∀ client e,
       from_connection_string connection_string = Emails.Returns client →
       Emails.send_email fuel from_connection_string connection_string sender
         recipient subject body html_content
       = Some (Emails.Raises e) →
       ∃ msg, e = Emails.RuntimeError ("An error occurred: " +:+ msg)).
Proof.
  unfold Emails.send_email. split.
  - intros e ->. reflexivity.
  - intros client e ->.
    destruct (Emails.begin_send client _) as [poller|e0].
    2:{ intros [= <-]. eauto. }
    destruct (Emails.poll_until_done fuel poller 0 0) as [[k|e0]|]; [| |done].
    2:{ intros [= <-]. eauto. }
    destruct (Emails.read_result poller k) as [d|e0]; simpl; [done|].
    intros [= <-]. eauto.
Qed.

Lemma send_email_failures_witness :
  Emails.send_email 19 (Scenario2.service 2 Scenario2.sent_result) ""
    "noreply@membrane.example" "user@example.com" "Verify" "Click" None
  = Some (Emails.Raises
            (Emails.ClientError "Connection string is either blank or malformed."))
  ∧ (∃ msg,
       Emails.RuntimeError "An error occurred: 'error'"
       = Emails.RuntimeError ("An error occurred: " +:+ msg)).
Proof.
  split.
  - exact (proj1 (send_email_failures 19
                    (Scenario2.service 2 Scenario2.sent_result) ""
                    "noreply@membrane.example" "user@example.com" "Verify"
                    "Click" None) _ eq_refl).
  - refine (proj2 (send_email_failures 19
                     (Scenario2.service 2
                        {[ "status" := VStr "Failed" ]}) "endpoint=x"
                     "noreply@membrane.example" "user@example.com" "Verify"
                     "Click" None) _ _ eq_refl _).
    vm_compute. reflexivity.
Defined.

(** X20.  What a returned dict tells.  When [send_email] returns, the
    poller was done after at most 18 waits, the status of its result was
    ["Succeeded"], and the dict returned holds that status and the id of
    the result under ["operation_id"], and nothing else. *)
Theorem send_email_returns_only_success fuel from_connection_string
    connection_string sender recipient subject body html_content sent :
  Emails.send_email fuel from_connection_string connection_string sender
    recipient subject body html_content
  = Some (Emails.Returns sent) →
  ∃ client poller k result id,
    from_connection_string connection_string = Emails.Returns client
    ∧ Emails.begin_send client
        (Emails.build_message sender recipient subject body html_content)
      = Emails.Returns poller
    ∧ (k ≤ 18)%nat
    ∧ Emails.poller_done poller k = Emails.Returns true
    ∧ Emails.poller_result poller k = Emails.Returns result
    ∧ result !! "status" = Some (VStr "Succeeded")
    ∧ result !! "id" = Some id
    ∧ sent = {[ "status" := VStr "Succeeded"; "operation_id" := id ]}.
Proof.
  unfold Emails.send_email.
  destruct (from_connection_string connection_string) as [client|]; [|done].
  destruct (Emails.begin_send client _) as [poller|] eqn:Hsend; [|done].
  destruct (Emails.poll_until_done fuel poller 0 0) as [[k|]|] eqn:Hpoll;
    [|done|done].
  apply (poll_done_inv poller fuel 0%nat 0 k) in Hpoll; [|reflexivity|lia].
  destruct Hpoll as [Hk Hdone].
  unfold Emails.read_result.
  destruct (Emails.poller_result poller k) as [result|] eqn:Hres; [|done].
  destruct (result !! "status") as [status|] eqn:Hs; [|done].
  destruct (bool_decide (status = VStr "Succeeded")) eqn:Hok.
  - apply bool_decide_eq_true in Hok. subst status.
    destruct (result !! "id") as [id|] eqn:Hid; [|done].
    simpl. intros [= <-].
    exists client, poller, k, result, id. repeat split; try done. lia.
  - destruct (result !! "error"); done.
Qed.

Lemma send_email_returns_only_success_witness :
  ∃ client poller k result id,
    Scenario2.service 2 Scenario2.sent_result "endpoint=x"
    = Emails.Returns client
    ∧ Emails.begin_send client
        (Emails.build_message "noreply@membrane.example" "user@example.com"
           "Verify" "Click" None)
      = Emails.Returns poller
    ∧ (k ≤ 18)%nat
    ∧ Emails.poller_done poller k = Emails.Returns true
    ∧ Emails.poller_result poller k = Emails.Returns result
    ∧ result !! "status" = Some (VStr "Succeeded")
    ∧ result !! "id" = Some id
    ∧ ({[ "status" := VStr "Succeeded"; "operation_id" := VStr "op-1" ]}
       : gmap string value)
      = {[ "status" := VStr "Succeeded"; "operation_id" := id ]}.
Proof.
  refine (send_email_returns_only_success 19
            (Scenario2.service 2 Scenario2.sent_result) "endpoint=x"
            "noreply@membrane.example" "user@example.com" "Verify" "Click"
            None _ _).
  vm_compute. reflexivity.
Defined.

(** ** Validating the address of a request *)

(** X21.  [validate_email_from_request] returns exactly when the address is
    not empty and matches the configured pattern (the empty pattern when the
    variable is not set), and what it returns is the address it was
    given. *)
Theorem validate_email_returns re_match allowed_pattern email returned :
  RequestHelpers.validate_email_from_request re_match allowed_pattern email
  = RequestHelpers.Returns returned
  ↔ returned = email
    ∧ falsy_token email = false
    ∧ re_match (default "" allowed_pattern) (token_str email)
      = RequestHelpers.Matched.
Proof.
  unfold RequestHelpers.validate_email_from_request,
    RequestHelpers.is_valid_email.
  destruct (falsy_token email).
  { split; [discriminate|]. intros (_ & Hf & _). discriminate. }
  destruct (re_match (default "" allowed_pattern) (token_str email)); simpl.
  - split.
    + intros [= <-]. done.
    + intros (-> & _ & _). reflexivity.
  - split; [discriminate|]. intros (_ & _ & H). discriminate.
  - split; [discriminate|]. intros (_ & _ & H). discriminate.
Qed.

(** X22.  What the validation raises.  [is_valid_email] never returns
    [False]: it returns [True] or raises.  So the errors of
    [validate_email_from_request] are [EmailError("Missing email.")] for an
    empty address, [EmailError] with ["Invalid email address: "] and the
    address for one that does not match, and the error of a pattern that
    does not compile; the message ["Invalid email address."] of its second
    test is never raised. *)
Theorem validate_email_errors re_match allowed_pattern email :
  (∀ address valid,
     RequestHelpers.is_valid_email re_match allowed_pattern address
     = RequestHelpers.Returns valid →
     valid = true)
  ∧ (∀ err,
       RequestHelpers.validate_email_from_request re_match allowed_pattern email
       = RequestHelpers.Raises err →
       (falsy_token email = true
        ∧ err = RequestHelpers.mk_error RequestHelpers.EmailError
                  "Missing email.")
       ∨ (falsy_token email = false
          ∧ re_match (default "" allowed_pattern) (token_str email)
            = RequestHelpers.NoMatch
          ∧ err = RequestHelpers.mk_error RequestHelpers.EmailError
                    ("Invalid email address: " +:+ token_str email))
       ∨ (falsy_token email = false
          ∧ ∃ msg,
              re_match (default "" allowed_pattern) (token_str email)
              = RequestHelpers.BadPattern msg
              ∧ err = RequestHelpers.mk_error RequestHelpers.ReError msg))
  ∧ RequestHelpers.validate_email_from_request re_match allowed_pattern email
    ≠ RequestHelpers.Raises
        (RequestHelpers.mk_error RequestHelpers.EmailError
           "Invalid email address.").
Proof.
  unfold RequestHelpers.validate_email_from_request,
    RequestHelpers.is_valid_email.
  split; [|split].
  - intros address valid.
    destruct (re_match (default "" allowed_pattern) address);
      [intros [= <-]; reflexivity|discriminate|discriminate].
  - intros err. destruct (falsy_token email).
    { intros [= <-]. left. done. }
    destruct (re_match (default "" allowed_pattern) (token_str email))
      as [| |msg]; simpl.
    + discriminate.
    + intros [= <-]. right. left. done.
    + intros [= <-]. right. right. eauto.
  - destruct (falsy_token email); [discriminate|].
    destruct (re_match (default "" allowed_pattern) (token_str email));
      simpl; discriminate.
Qed.

Lemma validate_email_errors_witness :
  falsy_token (Some "admin@example.com") = false
  ∧ Scenario2.re_match (default "" (Some "user@"))
      (token_str (Some "admin@example.com"))
    = RequestHelpers.NoMatch.
Proof.
  destruct (proj1 (proj2 (validate_email_errors Scenario2.re_match
                            (Some "user@") (Some "admin@example.com")))
              (RequestHelpers.mk_error RequestHelpers.EmailError
                 "Invalid email address: admin@example.com") eq_refl)
    as [[H _]|[(Hf & Hm & _)|(_ & msg & H & _)]].
  - discriminate H.
  - split; assumption.
  - discriminate H.
Defined.

Lemma validate_email_returns_witness :
  RequestHelpers.validate_email_from_request Scenario2.re_match
    None (Some "admin@example.com")
  = RequestHelpers.Returns (Some "admin@example.com").
Proof.
  apply (proj2 (validate_email_returns Scenario2.re_match None
                  (Some "admin@example.com") (Some "admin@example.com"))).
  repeat split.
Defined.

(** ** Issuing past the end of the calendar *)

(** X23.  A lifetime that carries the time of issue past the last
    [datetime], 9999-12-31 23:59:59.999999, makes
    [generate_email_verification_token] raise [OverflowError] at the
    addition: no key file is read, nothing is signed and no link is built,
    whatever the key store, the JWT library, the web framework and the host
    are. *)
Theorem generate_past_calendar cfg lib os web host utcnow email url lifetime
    private_path :
  Z.abs (lifetime / 86400) ≤ 999999999 →
  datetime_max < utcnow + lifetime * us_per_second →
  generate_email_verification_token cfg lib os web host utcnow email url
    lifetime private_path
  = Raise (mk_exn OverflowError "date value out of range").
Proof.
  intros Hdays Hmax.
  unfold generate_email_verification_token, expiration_timestamp_after,
    timedelta_seconds, datetime_add.
  destruct (Z.leb_spec (Z.abs (lifetime / 86400)) 999999999); [|lia].
  simpl.
  destruct (Z.leb_spec (utcnow + lifetime * us_per_second) datetime_max);
    [lia|].
  rewrite andb_false_r. reflexivity.
Qed.

Lemma generate_past_calendar_witness :
  generate_email_verification_token Scenario.cfg Scenario.lib Scenario.os
    Scenario.web Scenario2.utc_host Scenario2.utcnow_100s "user@example.com"
    "https://app.example/done" 1000000000000 "/server/private.pem"
  = Raise (mk_exn OverflowError "date value out of range").
Proof.
  apply generate_past_calendar.
  - vm_compute. discriminate.
  - vm_compute. reflexivity.
Defined.
